(** * soporte_mongo: helpers around a document database

    A shallow embedding of [src/soporte_mongo.py] and the properties of
    its query builders, its connection bootstrap, its provisioning routine
    and its bulk insertion.

    Python values are an inductive type, Python dictionaries are
    insertion-ordered association lists updated with the semantics of
    [d[k] = v], exceptions are an [outcome], and what the module prints
    is a list of structured lines carried by the state. *)

From Stdlib Require Import ZArith List Ascii String Floats.SpecFloat.
From stdpp Require Import base option list strings gmap.

Set Warnings "-register-all".

Local Open Scope string_scope.
Local Open Scope Z_scope.
Local Open Scope list_scope.

(** ** Python values *)

(** The values that travel through the module: JSON-like documents and the
    numbers of a radius.  A Python [float] is an IEEE-754 datum
    ([spec_float]), so that infinities and NaN are values like any other. *)
Inductive value : Type :=
  | VNone
  | VBool (b : bool)
  | VInt (z : Z)
  | VFloat (f : spec_float)
  | VStr (s : string)
  | VList (items : list value)
  | VDict (entries : list (string * value)).

(** Equality of values is decidable (structurally: the same constructor on
    equal parts). *)
Definition spec_float_eq_dec (f g : spec_float) : {f = g} + {f <> g}.
Proof.
  decide equality; first [apply Bool.bool_dec | apply Z.eq_dec | apply Pos.eq_dec].
Defined.

Fixpoint value_eq_dec (a b : value) {struct a} : {a = b} + {a <> b}.
Proof.
  refine (
    match a, b with
    | VNone, VNone => left eq_refl
    | VBool x, VBool y => if Bool.bool_dec x y then left _ else right _
    | VInt x, VInt y => if Z.eq_dec x y then left _ else right _
    | VFloat x, VFloat y => if spec_float_eq_dec x y then left _ else right _
    | VStr x, VStr y => if String.string_dec x y then left _ else right _
    | VList x, VList y =>
        if (fix items_dec (l m : list value) {struct l} : {l = m} + {l <> m} :=
              match l, m with
              | [], [] => left eq_refl
              | v :: l', w :: m' =>
                  match value_eq_dec v w, items_dec l' m' with
                  | left _, left _ => left _
                  | _, _ => right _
                  end
              | _, _ => right _
              end) x y
        then left _ else right _
    | VDict x, VDict y =>
        if (fix entries_dec (l m : list (string * value)) {struct l}
              : {l = m} + {l <> m} :=
              match l, m with
              | [], [] => left eq_refl
              | (j, v) :: l', (k, w) :: m' =>
                  match String.string_dec j k, value_eq_dec v w, entries_dec l' m' with
                  | left _, left _, left _ => left _
                  | _, _, _ => right _
                  end
              | _, _ => right _
              end) x y
        then left _ else right _
    | _, _ => right _
    end); congruence.
Defined.

#[global] Instance value_eq_decision : EqDecision value := value_eq_dec.

(** [float('nan')], which pandas uses to mark a missing cell. *)
Definition NaN : value := VFloat S754_nan.

(** ** Python dictionaries *)

Module PyDict.
Section Dict.
Context {K V : Type} `{EqDecision K}.

(** A [dict] in insertion order; the keys of a dictionary built with
    [set] from [empty] are pairwise distinct. *)
Definition t : Type := list (K * V).

Definition empty : t := [].

(** [d.get(k)] *)
Fixpoint get (k : K) (d : t) : option V :=
  match d with
  | [] => None
  | (k', v) :: d' => if decide (k = k') then Some v else get k d'
  end.

(** [d[k] = v]: an existing key keeps its position and takes the new
    value, a new key goes to the end. *)
Fixpoint set (k : K) (v : V) (d : t) : t :=
  match d with
  | [] => [(k, v)]
  | (k', v') :: d' =>
      if decide (k = k') then (k', v) :: d' else (k', v') :: set k v d'
  end.

(** [del d[k]] on the first (only) entry of [k]. *)
Fixpoint remove (k : K) (d : t) : t :=
  match d with
  | [] => []
  | (k', v') :: d' => if decide (k = k') then d' else (k', v') :: remove k d'
  end.

(** [d.pop(k)]: the value and the dictionary without the key, or nothing
    when the key is missing (where Python raises [KeyError]). *)
Definition pop (k : K) (d : t) : option (V * t) :=
  match get k d with
  | Some v => Some (v, remove k d)
  | None => None
  end.

(** [for k, v in entries: d[k] = v] *)
Definition store_all (entries : list (K * V)) (d : t) : t :=
  fold_left (fun d kv => set kv.1 kv.2 d) entries d.

(** A dictionary display [{k1: v1, ..., kn: vn}] (also [dict(pairs)]):
    the entries are stored left to right, starting from the empty
    dictionary. *)
Definition literal (entries : list (K * V)) : t := store_all entries empty.

Definition keys (d : t) : list K := d.*1.
Definition values (d : t) : list V := d.*2.
End Dict.
End PyDict.

(** A document: a dictionary with string keys. *)
Abbreviation dict := (list (string * value)).

(** ** Exceptions *)

Inductive exn : Type :=
  | ValueError (msg : string)
  | TypeError (msg : string)
  | KeyError (key : string)
  | CollectionInvalid (msg : string)     (* pymongo.errors.CollectionInvalid *)
  | DuplicateKeyError (id : value)       (* pymongo.errors.DuplicateKeyError *)
  | OperationFailure (msg : string)      (* pymongo.errors.OperationFailure *)
  | PyMongoError (msg : string).         (* any other error of the driver *)

(** What a call does: it returns a value or raises. *)
Inductive outcome (A : Type) : Type :=
  | Returns (a : A)
  | Raises (e : exn).
Arguments Returns {A} a.
Arguments Raises {A} e.

#[global] Instance outcome_ret : MRet outcome := fun A a => Returns a.
#[global] Instance outcome_bind : MBind outcome := fun A B f m =>
  match m with
  | Returns a => f a
  | Raises e => Raises e
  end.
#[global] Instance outcome_fmap : FMap outcome := fun A B f m =>
  match m with
  | Returns a => Returns (f a)
  | Raises e => Raises e
  end.

(** ** Tables *)

(** A row label of a table's index. *)
Inductive label : Type :=
  | LInt (i : Z)
  | LStr (s : string).

#[global] Instance label_eq_dec : EqDecision label.
Proof. solve_decision. Defined.

(** A [pandas.DataFrame]: the column labels, and the rows in order, each
    with its index label and one cell per column.  Column labels are
    distinct in every table the module builds. *)
Record DataFrame : Type := mkDataFrame {
  columns : list string;
  rows : list (label * list value)
}.

(** The first occurrence of every element, in order. *)
Fixpoint fast_unique (l : list string) : list string :=
  match l with
  | [] => []
  | x :: l' => x :: filter (fun y => x ≠ y) (fast_unique l')
  end.

(** The row of a record under the given columns; a field the record lacks
    is NaN. *)
Definition record_cells (cols : list string) (d : dict) : list value :=
  (fun c => default NaN (PyDict.get c d)) <$> cols.

(** Modelled from the spec: [pd.DataFrame(records)], the result
    normalization, is pandas code and not part of the repository.  One row
    per record in the order given, labelled 0, 1, ...; the columns are the
    union of the records' field names (in order of first appearance, as
    pandas keeps them for dictionaries); a field absent from a record is
    the absent marker NaN. *)
Definition pd_DataFrame (records : list dict) : DataFrame :=
  let cols := fast_unique (concat (PyDict.keys <$> records)) in
  {| columns := cols;
     rows := imap (fun i d => (LInt (Z.of_nat i), record_cells cols d)) records |}.

(** ** Collection handles for reading *)

(** The two calls the query builders make on a collection.  The engine is
    not modelled: a handle is what its [find] and [aggregate] answer, the
    matching documents or an error of the engine. *)
Record Collection : Type := mkCollection {
  find : value -> outcome (list dict);
  aggregate : list value -> outcome (list dict)
}.

(** ** The query builders *)

(** The filter of [query_near]:
    [{'geometry': {'$near': {f'${col_geometria_coleccion}': punto_referencia,
                             '$maxDistance': radio}}}] *)
Definition near_filter (punto_referencia radio : value)
    (col_geometria_coleccion : string) : value :=
  VDict (PyDict.literal [
    ("geometry", VDict (PyDict.literal [
      ("$near", VDict (PyDict.literal [
        ("$" +:+ col_geometria_coleccion, punto_referencia);
        ("$maxDistance", radio)]))]))]).

Definition query_near (punto_referencia radio : value) (coleccion : Collection)
    (col_geometria_coleccion : string) : outcome DataFrame :=
  pd_DataFrame <$> find coleccion
    (near_filter punto_referencia radio col_geometria_coleccion).

(** The local [query] of [query_geonear]. *)
Definition geonear_query (punto_referencia nombre_nuevo_campo radio : value)
    : list value :=
  [VDict (PyDict.literal [
     ("$geoNear", VDict (PyDict.literal [
       ("near", punto_referencia);
       ("distanceField", nombre_nuevo_campo);
       ("maxDistance", radio);
       ("spherical", VBool true)]))])].

Definition query_geonear (punto_referencia nombre_nuevo_campo radio : value)
    (coleccion : Collection) : outcome DataFrame :=
  let query := geonear_query punto_referencia nombre_nuevo_campo radio in
  pd_DataFrame <$> aggregate coleccion query.

(** ** The driver and the effects of the other functions *)

(** A line written by [print], kept with its parts rather than formatted:
    - [ErrorConectar e]: "Error al conectar con MongoDB: {e}"
    - [ColeccionYaExiste c]: "La colección {c} ya existe."
    - [ErrorCrear e]: "Error al crear la base de datos y colecciones: {e}"
    - [IdYaExiste id]: "Este 'ID' ({id}) ya existe en la base de datos."
    - [ErrorInsertar c e]: "Error al insertar datos en la colección {c}: {e}" *)
Inductive printed : Type :=
  | ErrorConectar (e : exn)
  | ColeccionYaExiste (categoria : string)
  | ErrorCrear (e : exn)
  | IdYaExiste (id : value)
  | ErrorInsertar (categoria : string) (e : exn).

(** Handles of the driver are names: a client is the server itself, a
    database handle [cliente[db]] is the name of the database, a collection
    handle [bbdd[c]] the names of the database and of the collection.
    There is one server, the one [pymongo.MongoClient()] connects to, and
    [MongoClient] is a client of it. *)
Inductive handle : Type :=
  | MongoClient
  | Database (db : string)
  | CollectionOf (db coll : string).

(** [h[name]]: a database of a client, a collection of a database, a
    sub-collection of a collection.  This is the handle for a name the
    driver accepts; for a name it rejects (the empty name, a name with a
    space, a dot, a dollar sign, ...) pymongo raises [InvalidName] where the
    handle is formed, which is not modelled here: what depends on it is
    stated for names that are [nombre_simple]. *)
Definition getitem (h : handle) (name : string) : handle :=
  match h with
  | MongoClient => Database name
  | Database db => CollectionOf db name
  | CollectionOf db coll => CollectionOf db (coll +:+ "." +:+ name)
  end.

(** Any Python object that can be passed where a connection is expected. *)
Inductive pyobject : Type :=
  | Handle (h : handle)
  | Plain (v : value).

(** The calls the module makes on pymongo, over the state [St] of a server:
    [cliente.list_database_names()], [bbdd.list_collection_names()],
    [sitios.create_collection(name)] and [coleccion.insert_one(documento)],
    each with whatever the driver raises. *)
Class Driver (St : Type) : Type := {
  list_database_names : handle -> St -> outcome (list string);
  list_collection_names : handle -> St -> outcome (list string);
  create_collection : handle -> string -> St -> outcome unit * St;
  insert_one : handle -> dict -> St -> outcome unit * St
}.

(** The state of a run: the server and what has been printed so far. *)
Record world (St : Type) : Type := mkWorld {
  server : St;
  stdout : list printed
}.
Arguments mkWorld {St} server stdout.
Arguments server {St} w.
Arguments stdout {St} w.

(** A computation that reads and changes the world and returns or raises.
    The world survives an exception, as in Python. *)
Definition M (St A : Type) : Type := world St -> outcome A * world St.

Module Eff.
Section Ops.
Context {St : Type}.

Definition ret {A} (a : A) : M St A := fun w => (Returns a, w).

Definition bind {A B} (m : M St A) (k : A -> M St B) : M St B := fun w =>
  match m w with
  | (Returns a, w') => k a w'
  | (Raises e, w') => (Raises e, w')
  end.

Definition raise {A} (e : exn) : M St A := fun w => (Raises e, w).

(** [try: m  except Exception as e: h e] *)
Definition try_except {A} (m : M St A) (h : exn -> M St A) : M St A := fun w =>
  match m w with
  | (Returns a, w') => (Returns a, w')
  | (Raises e, w') => h e w'
  end.

Definition print (line : printed) : M St unit := fun w =>
  (Returns tt, mkWorld (server w) (stdout w ++ [line])).

(** A call that only reads the server. *)
Definition query {A} (f : St -> outcome A) : M St A := fun w => (f (server w), w).

(** A call that may change the server. *)
Definition call {A} (f : St -> outcome A * St) : M St A := fun w =>
  let '(r, s) := f (server w) in (r, mkWorld s (stdout w)).

(** A pure computation that may raise. *)
Definition lift {A} (r : outcome A) : M St A := fun w => (r, w).
End Ops.
End Eff.

#[global] Instance M_ret {St} : MRet (M St) := @Eff.ret St.
#[global] Instance M_bind {St} : MBind (M St) := fun A B k m => Eff.bind m k.

(** ** The table operations of the bulk insertion *)

(** The dictionary of a row: column label to cell. *)
Definition row_dict (cols : list string) (cells : list value) : dict :=
  PyDict.literal (zip cols cells).

(** The row's cell under "category" is the string [categoria]. *)
Definition has_category (categoria : string) (cols : list string)
    (row : label * list value) : Prop :=
  PyDict.get "category" (zip cols row.2) = Some (VStr categoria).

#[global] Instance has_category_dec categoria cols row :
  Decision (has_category categoria cols row).
Proof. unfold has_category. apply _. Defined.

(** [df[df["category"] == categoria]]: the rows of that category, with
    their labels; a table without the column raises [KeyError].  This is
    the selection on a table whose label "category" is not repeated; with
    the label repeated [df["category"]] is a table and not a column, and
    the selection of pandas fails: what depends on it is stated for tables
    with distinct column labels. *)
Definition filter_category (df : DataFrame) (categoria : string)
    : outcome DataFrame :=
  if decide ("category" ∈ columns df)
  then Returns {| columns := columns df;
                  rows := filter (has_category categoria (columns df)) (rows df) |}
  else Raises (KeyError "category").

(** [df.T.to_dict().values()]: the transposed table as a dictionary from
    row label to the row's dictionary, then its values.  Rows that share a
    label share a key of that dictionary. *)
Definition T_to_dict_values (df : DataFrame) : list dict :=
  PyDict.values
    (PyDict.literal
       ((fun row : label * list value =>
           (row.1, row_dict (columns df) row.2)) <$> rows df)).

(** [{"_id": d.pop("fsq_id"), **d}]: the value under "fsq_id" moves to a
    first entry "_id", the other entries follow (an "_id" entry among
    them overwrites the value); without "fsq_id", [KeyError]. *)
Definition rename_id (d : dict) : outcome dict :=
  match PyDict.pop "fsq_id" d with
  | None => Raises (KeyError "fsq_id")
  | Some (id, d') => Returns (PyDict.literal (("_id", id) :: d'))
  end.

(** [[{"_id": d.pop("fsq_id"), **d} for d in lista_diccionarios]], built
    in full before anything is inserted. *)
Fixpoint rename_ids (lista_diccionarios : list dict) : outcome (list dict) :=
  match lista_diccionarios with
  | [] => Returns []
  | d :: resto =>
      doc ← rename_id d;
      docs ← rename_ids resto;
      Returns (doc :: docs)
  end.

(** ** Bootstrap, provisioning and bulk insertion *)

Section Glue.
Context {St : Type} `{Driver St}.

Definition conexion_mongo (nombre_base_datos nombre_coleccion : string)
    : M St (option (handle * handle)) :=
  Eff.try_except
    (let cliente := MongoClient in
     dbs ← Eff.query (list_database_names cliente);
     (if decide (nombre_base_datos ∈ dbs) then mret tt
      else Eff.raise (ValueError
             ("La base de datos '" +:+ nombre_base_datos +:+ "' no existe.")));;
     let bbdd := getitem cliente nombre_base_datos in
     colls ← Eff.query (list_collection_names bbdd);
     (if decide (nombre_coleccion ∈ colls) then mret tt
      else Eff.raise (ValueError
             ("La colección '" +:+ nombre_coleccion
              +:+ "' no existe en la base de datos '"
              +:+ nombre_base_datos +:+ "'.")));;
     let con := getitem bbdd nombre_coleccion in
     mret (Some (cliente, con)))
    (fun e => Eff.print (ErrorConectar e);; mret None).

(** [isinstance(conexion, (pymongo.MongoClient, pymongo.collection.Collection))] *)
Definition is_client_or_collection (conexion : pyobject) : option handle :=
  match conexion with
  | Handle MongoClient => Some MongoClient
  | Handle (CollectionOf db coll) => Some (CollectionOf db coll)
  | Handle (Database _) | Plain _ => None
  end.

(** The loop over [nombre_colecciones]: only [CollectionInvalid] is
    handled here, any other exception leaves the loop. *)
Fixpoint crear_colecciones (sitios : handle) (nombre_colecciones : list string)
    : M St unit :=
  match nombre_colecciones with
  | [] => mret tt
  | categoria :: resto =>
      Eff.try_except
        (Eff.call (create_collection sitios categoria))
        (fun e =>
           match e with
           | CollectionInvalid _ => Eff.print (ColeccionYaExiste categoria)
           | _ => Eff.raise e
           end);;
      crear_colecciones sitios resto
  end.

Definition crear_bbbd_colecciones (conexion : pyobject)
    (nombre_base_datos : string) (nombre_colecciones : list string)
    : M St (option handle) :=
  Eff.try_except
    (match is_client_or_collection conexion with
     | None =>
         Eff.raise (TypeError
           ("La conexión proporcionada no es válida. Debe ser una instancia de "
            +:+ "pymongo.MongoClient o pymongo.collection.Collection."))
     | Some conexion =>
         let sitios := getitem conexion nombre_base_datos in
         crear_colecciones sitios nombre_colecciones;;
         mret (Some sitios)
     end)
    (fun e => Eff.print (ErrorCrear e);; mret None).

(** The loop over the documents of one category. *)
Fixpoint insertar_documentos (coleccion : handle) (categoria : string)
    (lista_diccionarios : list dict) : M St unit :=
  match lista_diccionarios with
  | [] => mret tt
  | documento :: resto =>
      Eff.try_except
        (Eff.call (insert_one coleccion documento))
        (fun e =>
           match e with
           | DuplicateKeyError _ =>
               match PyDict.get "_id" documento with
               | Some id => Eff.print (IdYaExiste id)
               | None => Eff.raise (KeyError "_id")
               end
           | _ => Eff.print (ErrorInsertar categoria e)
           end);;
      insertar_documentos coleccion categoria resto
  end.

Fixpoint insertar_datos_en_colecciones (df : DataFrame) (base_datos : handle)
    (nombre_categorias : list string) : M St unit :=
  match nombre_categorias with
  | [] => mret tt
  | categoria :: resto =>
      df_insertar ← Eff.lift (filter_category df categoria);
      let lista_diccionarios := T_to_dict_values df_insertar in
      lista_diccionarios ← Eff.lift (rename_ids lista_diccionarios);
      insertar_documentos (getitem base_datos categoria) categoria lista_diccionarios;;
      insertar_datos_en_colecciones df base_datos resto
  end.
End Glue.

(** ** A server *)

(** Modelled from the spec: the server behind the driver is not part of the
    repository.  It holds, per database and per collection, the stored
    documents in insertion order.  Creating a collection that exists is
    "already exists" ([CollectionInvalid]); inserting a document whose
    [_id] is the [_id] of a stored document is a duplicate-key conflict
    ([DuplicateKeyError]) that leaves the collection as it is; a method
    called on a handle that does not have it is a [TypeError].  The server
    is reachable and accepts every name; an [_id] the driver would
    generate for a document without one is left out. *)
Module Mongo.
Abbreviation state := (gmap string (gmap string (list dict))).

Definition collections (db : string) (s : state) : gmap string (list dict) :=
  default ∅ (s !! db).

Definition documents (db coll : string) (s : state) : list dict :=
  default [] (collections db s !! coll).

Definition has_id (id : value) (d : dict) : bool :=
  bool_decide (PyDict.get "_id" d = Some id).

Definition store (db coll : string) (docs : list dict) (s : state) : state :=
  <[db := <[coll := docs]> (collections db s)]> s.

Definition not_callable : exn := TypeError "object is not callable".

Definition database_names (h : handle) (s : state) : outcome (list string) :=
  match h with
  | MongoClient => Returns ((map_to_list s).*1)
  | _ => Raises not_callable
  end.

Definition collection_names (h : handle) (s : state) : outcome (list string) :=
  match h with
  | Database db => Returns ((map_to_list (collections db s)).*1)
  | _ => Raises not_callable
  end.

Definition create (h : handle) (name : string) (s : state)
    : outcome unit * state :=
  match h with
  | Database db =>
      match collections db s !! name with
      | Some _ =>
          (Raises (CollectionInvalid ("collection " +:+ name +:+ " already exists")), s)
      | None => (Returns tt, store db name [] s)
      end
  | _ => (Raises not_callable, s)
  end.

Definition insert (h : handle) (documento : dict) (s : state)
    : outcome unit * state :=
  match h with
  | CollectionOf db coll =>
      let stored := documents db coll s in
      match PyDict.get "_id" documento with
      | Some id =>
          if existsb (has_id id) stored
          then (Raises (DuplicateKeyError id), s)
          else (Returns tt, store db coll (stored ++ [documento]) s)
      | None => (Returns tt, store db coll (stored ++ [documento]) s)
      end
  | _ => (Raises not_callable, s)
  end.

(** Every collection of [s'] starts with what it held in [s]: stored
    documents are neither changed, removed nor reordered. *)
Definition grows (s s' : state) : Prop :=
  forall db coll, documents db coll s `prefix_of` documents db coll s'.

(** Some stored document of the collection has this [_id]. *)
Definition stored_id (db coll : string) (id : value) (s : state) : Prop :=
  exists d, d ∈ documents db coll s /\ PyDict.get "_id" d = Some id.

#[global] Instance driver : Driver state := {|
  list_database_names := database_names;
  list_collection_names := collection_names;
  create_collection := create;
  insert_one := insert
|}.
End Mongo.

(** ** Inputs used in the examples *)

(** A reference point, [{'type': 'Point', 'coordinates': [-3.75, 40.5]}]
    (a float is mantissa times a power of two). *)
Definition punto_madrid : value :=
  VDict [("type", VStr "Point");
         ("coordinates", VList [VFloat (S754_finite true 15 (-2));
                                VFloat (S754_finite false 81 (-1))])].

(** A collection with no matching document, whatever the query. *)
Definition coleccion_vacia : Collection :=
  {| find := fun _ => Returns []; aggregate := fun _ => Returns [] |}.

(** A collection that answers with one document holding the query it was
    asked, so that the query is visible in the result. *)
Definition coleccion_eco : Collection :=
  {| find := fun q => Returns [[("consulta", q)]];
     aggregate := fun q => Returns [[("consulta", VList q)]] |}.

(** A collection that answers every query with the same two documents,
    which do not have the same fields. *)
Definition coleccion_dos : Collection :=
  let docs := [[("_id", VInt 1); ("name", VStr "bar")];
               [("_id", VInt 2); ("distancia", VInt 100)]] in
  {| find := fun _ => Returns docs; aggregate := fun _ => Returns docs |}.

(** A batch of two rows of one category with different identifiers, both
    labelled 0 (as after concatenating two tables without renumbering). *)
Definition df_etiqueta_repetida : DataFrame :=
  {| columns := ["fsq_id"; "category"; "name"];
     rows := [(LInt 0, [VStr "a"; VStr "bar"; VStr "A"]);
              (LInt 0, [VStr "b"; VStr "bar"; VStr "B"])] |}.

(** The batch of the spec's scenario: two rows of one category that share
    the identifier "abc". *)
Definition df_mismo_id : DataFrame :=
  {| columns := ["fsq_id"; "category"; "name"];
     rows := [(LInt 0, [VStr "abc"; VStr "bar"; VStr "A"]);
              (LInt 1, [VStr "abc"; VStr "bar"; VStr "B"]);
              (LInt 2, [VStr "xyz"; VStr "bar"; VStr "C"])] |}.

(** A batch without the "fsq_id" column. *)
Definition df_sin_fsq_id : DataFrame :=
  {| columns := ["category"; "name"];
     rows := [(LInt 0, [VStr "bar"; VStr "A"]);
              (LInt 1, [VStr "park"; VStr "B"])] |}.

(** A server with no database, and nothing printed yet. *)
Definition mundo_vacio : world Mongo.state := mkWorld ∅ [].

(** Radii the spec excludes: negative, or not finite. *)
Definition negative_or_non_finite (radio : value) : bool :=
  match radio with
  | VInt z => bool_decide (z < 0)
  | VFloat (S754_finite s _ _) => s
  | VFloat (S754_infinity _) | VFloat S754_nan => true
  | _ => false
  end.

(** A reference point without its 'type' or its 'coordinates' entry. *)
Definition structurally_invalid (punto_referencia : value) : bool :=
  match punto_referencia with
  | VDict d =>
      negb (bool_decide (is_Some (PyDict.get "type" d)))
      || negb (bool_decide (is_Some (PyDict.get "coordinates" d)))
  | _ => true
  end.

(** The filter as the spec words it: the operator entry for the reference
    point followed by the '$maxDistance' entry, under '$near' on
    'geometry'. *)
Definition claimed_near_filter (punto_referencia radio : value)
    (geometry_field_key : string) : value :=
  VDict [("geometry",
          VDict [("$near",
                  VDict [("$" +:+ geometry_field_key, punto_referencia);
                         ("$maxDistance", radio)])])].

(** A table is well formed when its column labels are distinct and every
    row has one cell per column. *)
Definition well_formed (df : DataFrame) : Prop :=
  NoDup (columns df) /\ Forall (fun row => length row.2 = length (columns df)) (rows df).

(** ** Names *)

(** An ASCII letter, a digit or an underscore. *)
Definition caracter_simple (a : ascii) : bool :=
  let n := nat_of_ascii a in
  ((48 <=? n) && (n <=? 57) || (65 <=? n) && (n <=? 90)
   || (97 <=? n) && (n <=? 122) || (n =? 95))%nat.

(** A name that is not empty and is made of letters, digits and
    underscores.  pymongo accepts such a name for a database and for a
    collection: it has none of the characters the driver rejects. *)
Definition nombre_simple (name : string) : bool :=
  negb (String.eqb name "") && forallb caracter_simple (list_ascii_of_string name).

(** ** Further inputs *)

(** A driver whose server cannot be reached: every call raises. *)
Definition sin_servidor : Driver unit :=
  {| list_database_names := fun _ _ => Raises (PyMongoError "ServerSelectionTimeoutError");
     list_collection_names := fun _ _ => Raises (PyMongoError "ServerSelectionTimeoutError");
     create_collection := fun _ _ s =>
       (Raises (PyMongoError "ServerSelectionTimeoutError"), s);
     insert_one := fun _ _ s =>
       (Raises (PyMongoError "ServerSelectionTimeoutError"), s) |}.

(** A server whose database "lab" has the empty collection "bar". *)
Definition mundo_lab : world Mongo.state :=
  mkWorld (Mongo.store "lab" "bar" [] ∅) [].

(** A batch without the "category" column. *)
Definition df_sin_category : DataFrame :=
  {| columns := ["fsq_id"; "name"];
     rows := [(LInt 0, [VStr "a"; VStr "A"])] |}.

(** A row dictionary that has an "_id" entry beside its "fsq_id". *)
Definition fila_con_id : dict :=
  [("fsq_id", VStr "a"); ("name", VStr "A"); ("_id", VInt 7)].



(** The lines [print]ed for collections that exist. *)
Definition ya_existen (nombre_colecciones : list string) : list printed :=
  ColeccionYaExiste <$> nombre_colecciones.

(** * Properties *)

(** ** The query builders *)

(** C1: [query_geonear] builds a pipeline of exactly one stage, a
    [$geoNear] whose 'near' is the reference point, whose 'distanceField' is
    the given name, whose 'maxDistance' is the radius and whose 'spherical'
    is true, and returns the table of what the collection's [aggregate]
    answers for it. *)
Theorem query_geonear_pipeline
    (punto_referencia nombre_nuevo_campo radio : value) (coleccion : Collection) :
  geonear_query punto_referencia nombre_nuevo_campo radio =
    [VDict [("$geoNear",
             VDict [("near", punto_referencia);
                    ("distanceField", nombre_nuevo_campo);
                    ("maxDistance", radio);
                    ("spherical", VBool true)])]]
  /\ query_geonear punto_referencia nombre_nuevo_campo radio coleccion =
       pd_DataFrame <$>
         aggregate coleccion (geonear_query punto_referencia nombre_nuevo_campo radio).
Proof. split; reflexivity. Qed.

(** The collided key: with "maxDistance" as geometry key the two entries of
    the inner dictionary share the key '$maxDistance', and the display
    keeps one entry, bound to the radius. *)
Lemma near_filter_maxDistance (punto_referencia radio : value) :
  near_filter punto_referencia radio "maxDistance" =
    VDict [("geometry", VDict [("$near", VDict [("$maxDistance", radio)])])].
Proof. reflexivity. Qed.

Lemma near_filter_other_key (punto_referencia radio : value) (key : string) :
  key <> "maxDistance" ->
  near_filter punto_referencia radio key =
    claimed_near_filter punto_referencia radio key.
Proof.
  intros Hkey. unfold near_filter, claimed_near_filter.
  do 3 f_equal. f_equal. f_equal. f_equal.
  unfold PyDict.literal. simpl.
  destruct (decide _) as [Heq|]; [|reflexivity].
  exfalso. apply Hkey. now inversion Heq.
Qed.

(** C3 (as stated, refuted): with the geometry key "maxDistance" the filter
    that reaches [find] holds no entry for the reference point, so it is
    not the filter the claim describes. *)
Lemma query_near_maxDistance_key_drops_point :
  query_near punto_madrid (VInt 500) coleccion_eco "maxDistance" =
    Returns (pd_DataFrame
      [[("consulta",
         VDict [("geometry", VDict [("$near", VDict [("$maxDistance", VInt 500)])])])]])
  /\ query_near punto_madrid (VInt 500) coleccion_eco "maxDistance" <>
       pd_DataFrame <$>
         find coleccion_eco (claimed_near_filter punto_madrid (VInt 500) "maxDistance").
Proof. split; [reflexivity | discriminate]. Qed.

(** C3 (amended): for every geometry key other than "maxDistance",
    [query_near] passes to [find] exactly the filter on 'geometry' whose
    '$near' holds the reference point under '$' followed by the key, and
    the radius under '$maxDistance', and returns the table of what [find]
    answers. *)
Theorem query_near_filter (punto_referencia radio : value) (coleccion : Collection)
    (col_geometria_coleccion : string) :
  col_geometria_coleccion <> "maxDistance" ->
  query_near punto_referencia radio coleccion col_geometria_coleccion =
    pd_DataFrame <$>
      find coleccion
        (VDict [("geometry",
                 VDict [("$near",
                         VDict [("$" +:+ col_geometria_coleccion, punto_referencia);
                                ("$maxDistance", radio)])])]).
Proof.
  intros Hkey. unfold query_near.
  now rewrite near_filter_other_key.
Qed.

Lemma query_near_filter_witness :
  "geometry" <> "maxDistance"
  /\ query_near punto_madrid (VInt 500) coleccion_eco "geometry" =
       pd_DataFrame <$>
         find coleccion_eco
           (VDict [("geometry",
                    VDict [("$near",
                            VDict [("$geometry", punto_madrid);
                                   ("$maxDistance", VInt 500)])])]).
Proof.
  split; [discriminate | apply (query_near_filter punto_madrid (VInt 500)); discriminate].
Defined.

(** C2 (as stated, refuted): a radius of -1 and a NaN radius are passed on;
    on a collection that accepts the pipeline the call returns a table, it
    does not fail. *)
Lemma query_geonear_accepts_bad_radius :
  negative_or_non_finite (VInt (-1)) = true
  /\ negative_or_non_finite NaN = true
  /\ query_geonear punto_madrid (VStr "distancia") (VInt (-1)) coleccion_vacia =
       Returns (pd_DataFrame [])
  /\ query_geonear punto_madrid (VStr "distancia") NaN coleccion_vacia =
       Returns (pd_DataFrame [])
  /\ (forall e, query_geonear punto_madrid (VStr "distancia") (VInt (-1)) coleccion_vacia
                 <> Raises e)
  /\ query_geonear punto_madrid (VStr "distancia") (VInt (-1)) coleccion_eco =
       Returns (pd_DataFrame
         [[("consulta",
            VList [VDict [("$geoNear",
                           VDict [("near", punto_madrid);
                                  ("distanceField", VStr "distancia");
                                  ("maxDistance", VInt (-1));
                                  ("spherical", VBool true)])]])]]).
Proof. repeat split; try reflexivity; discriminate. Qed.

(** C2 (amended): [query_geonear] does not look at the radius.  Whatever
    the radius, it is the 'maxDistance' of the stage, and the call fails
    exactly when the collection's [aggregate] fails on that pipeline, with
    the same error; otherwise it returns the table of the answer. *)
Theorem query_geonear_fails_as_aggregate
    (punto_referencia nombre_nuevo_campo radio : value) (coleccion : Collection) :
  let query :=
    [VDict [("$geoNear",
             VDict [("near", punto_referencia);
                    ("distanceField", nombre_nuevo_campo);
                    ("maxDistance", radio);
                    ("spherical", VBool true)])]] in
  (forall e,
     query_geonear punto_referencia nombre_nuevo_campo radio coleccion = Raises e
     <-> aggregate coleccion query = Raises e)
  /\ (forall t,
        query_geonear punto_referencia nombre_nuevo_campo radio coleccion = Returns t
        <-> exists docs, aggregate coleccion query = Returns docs /\ t = pd_DataFrame docs).
Proof.
  cbv zeta. unfold query_geonear.
  change (geonear_query punto_referencia nombre_nuevo_campo radio)
    with [VDict [("$geoNear",
                  VDict [("near", punto_referencia);
                         ("distanceField", nombre_nuevo_campo);
                         ("maxDistance", radio);
                         ("spherical", VBool true)])]].
  destruct (aggregate coleccion _) as [docs|e]; simpl; split.
  - intros e; split; discriminate.
  - intros t; split.
    + intros [= <-]. exists docs. split; reflexivity.
    + intros (docs' & [= <-] & ->). reflexivity.
  - intros e'; split; intros [= ->]; reflexivity.
  - intros t; split; [discriminate | intros (docs' & [=] & _)].
Qed.

(** C4 (as stated, refuted): a reference point with no entry at all, and one
    with a 'type' but no 'coordinates', are passed on to [find]; on a
    collection that accepts the filter the call returns a table. *)
Lemma query_near_accepts_invalid_point :
  structurally_invalid (VDict []) = true
  /\ structurally_invalid (VDict [("type", VStr "Point")]) = true
  /\ query_near (VDict []) (VInt 500) coleccion_vacia "geometry" =
       Returns (pd_DataFrame [])
  /\ (forall e, query_near (VDict []) (VInt 500) coleccion_vacia "geometry" <> Raises e)
  /\ query_near (VDict [("type", VStr "Point")]) (VInt 500) coleccion_eco "geometry" =
       Returns (pd_DataFrame
         [[("consulta",
            VDict [("geometry",
                    VDict [("$near",
                            VDict [("$geometry", VDict [("type", VStr "Point")]);
                                   ("$maxDistance", VInt 500)])])])]]).
Proof. repeat split; try reflexivity; discriminate. Qed.

(** C4 (amended): [query_near] does not look into the reference point.
    Whatever the point, for every geometry key other than "maxDistance" it
    is placed as it is under '$' followed by the key in the '$near' filter
    on 'geometry', beside the radius under '$maxDistance' (for the key
    "maxDistance" the filter holds the radius alone); the call fails
    exactly when the collection's [find] fails on that filter, with the
    same error, and otherwise returns the table of the answer. *)
Theorem query_near_fails_as_find (punto_referencia radio : value)
    (coleccion : Collection) (col_geometria_coleccion : string) :
  let filtro :=
    VDict [("geometry",
            VDict [("$near",
                    VDict (if decide (col_geometria_coleccion = "maxDistance")
                           then [("$maxDistance", radio)]
                           else [("$" +:+ col_geometria_coleccion, punto_referencia);
                                 ("$maxDistance", radio)]))])] in
  (forall e,
     query_near punto_referencia radio coleccion col_geometria_coleccion = Raises e
     <-> find coleccion filtro = Raises e)
  /\ (forall t,
        query_near punto_referencia radio coleccion col_geometria_coleccion = Returns t
        <-> exists docs, find coleccion filtro = Returns docs /\ t = pd_DataFrame docs).
Proof.
  cbv zeta. unfold query_near.
  assert (Hfiltro : near_filter punto_referencia radio col_geometria_coleccion =
            VDict [("geometry",
                    VDict [("$near",
                            VDict (if decide (col_geometria_coleccion = "maxDistance")
                                   then [("$maxDistance", radio)]
                                   else [("$" +:+ col_geometria_coleccion, punto_referencia);
                                         ("$maxDistance", radio)]))])]).
  { destruct (decide _) as [->|Hne]; [reflexivity|now apply near_filter_other_key]. }
  rewrite Hfiltro.
  destruct (find coleccion _) as [docs|e]; simpl; split.
  - intros e; split; discriminate.
  - intros t; split.
    + intros [= <-]. exists docs. split; reflexivity.
    + intros (docs' & [= <-] & ->). reflexivity.
  - intros e'; split; intros [= ->]; reflexivity.
  - intros t; split; [discriminate | intros (docs' & [=] & _)].
Qed.

(** ** Result normalization *)

Lemma elem_of_fast_unique (l : list string) (x : string) :
  x ∈ fast_unique l <-> x ∈ l.
Proof.
  induction l as [|y l IH]; simpl; [reflexivity|].
  rewrite !elem_of_cons, list_elem_of_filter, IH.
  destruct (decide (x = y)) as [->|Hne]; [tauto|].
  split; [tauto|]. intros [?|?]; [tauto|]. right. split; [congruence|assumption].
Qed.

Lemma NoDup_fast_unique (l : list string) : NoDup (fast_unique l).
Proof.
  induction l as [|y l IH]; simpl; [constructor|].
  apply NoDup_cons. split.
  - rewrite list_elem_of_filter. tauto.
  - now apply NoDup_filter.
Qed.

Lemma elem_of_concat_lists {A} (ls : list (list A)) (x : A) :
  x ∈ concat ls <-> exists l, l ∈ ls /\ x ∈ l.
Proof.
  induction ls as [|l ls IH]; simpl.
  - split; [intros H; inversion H | intros (l & H & _); inversion H].
  - rewrite elem_of_app, IH. split.
    + intros [H|(l' & H1 & H2)].
      * exists l. split; [left | assumption].
      * exists l'. split; [now right | assumption].
    + intros (l' & [->|H1]%elem_of_cons & H2); [now left|].
      right. now exists l'.
Qed.

(** The columns of a normalized table are the union of the field names. *)
Lemma pd_DataFrame_columns (raw : list dict) (c : string) :
  c ∈ columns (pd_DataFrame raw) <-> exists d, d ∈ raw /\ c ∈ PyDict.keys d.
Proof.
  simpl. rewrite elem_of_fast_unique, elem_of_concat_lists. split.
  - intros (l & (d & -> & Hd)%list_elem_of_fmap & Hc). now exists d.
  - intros (d & Hd & Hc). exists (PyDict.keys d). split; [|assumption].
    apply list_elem_of_fmap. now exists d.
Qed.

Lemma pd_DataFrame_row (raw : list dict) (i : nat) (d : dict) :
  raw !! i = Some d ->
  rows (pd_DataFrame raw) !! i =
    Some (LInt (Z.of_nat i),
          (fun c => default NaN (PyDict.get c d)) <$> columns (pd_DataFrame raw)).
Proof.
  intros Hi. simpl. rewrite list_lookup_imap, Hi. reflexivity.
Qed.

Lemma pd_DataFrame_well_formed (raw : list dict) : well_formed (pd_DataFrame raw).
Proof.
  split.
  - apply NoDup_fast_unique.
  - apply Forall_lookup. intros i row Hrow. simpl in Hrow.
    rewrite list_lookup_imap in Hrow.
    destruct (raw !! i) as [d|]; [|discriminate].
    injection Hrow as <-. simpl. unfold record_cells. now rewrite length_fmap.
Qed.

(** C5: when the engine answers the query with no document, [query_near]
    and [query_geonear] return a table (they do not raise) that has no row
    and is well formed.  The point and the radius are not looked at, so this
    holds for the valid ones in particular. *)
Theorem empty_result_is_empty_table
    (punto_referencia nombre_nuevo_campo radio : value)
    (coleccion1 coleccion2 : Collection) (col_geometria_coleccion : string) :
  find coleccion1 (near_filter punto_referencia radio col_geometria_coleccion)
    = Returns [] ->
  aggregate coleccion2 (geonear_query punto_referencia nombre_nuevo_campo radio)
    = Returns [] ->
  exists t,
    query_near punto_referencia radio coleccion1 col_geometria_coleccion = Returns t
    /\ query_geonear punto_referencia nombre_nuevo_campo radio coleccion2 = Returns t
    /\ rows t = [] /\ columns t = [] /\ well_formed t.
Proof.
  intros Hfind Hagg. exists (pd_DataFrame []).
  unfold query_near, query_geonear. rewrite Hfind, Hagg.
  repeat split; try reflexivity.
  - constructor.
  - constructor.
Qed.

Lemma empty_result_is_empty_table_witness :
  exists t,
    query_near punto_madrid (VInt 500) coleccion_vacia "geometry" = Returns t
    /\ query_geonear punto_madrid (VStr "distancia") (VInt 500) coleccion_vacia = Returns t
    /\ rows t = [] /\ columns t = [] /\ well_formed t.
Proof.
  apply (empty_result_is_empty_table punto_madrid (VStr "distancia") (VInt 500)
           coleccion_vacia coleccion_vacia "geometry"); reflexivity.
Defined.

(** The table of the two documents of [coleccion_dos]: three columns in
    order of first appearance, NaN where a field is missing. *)
Example pd_DataFrame_dos :
  query_near punto_madrid (VInt 500) coleccion_dos "geometry" =
    Returns {| columns := ["_id"; "name"; "distancia"];
               rows := [(LInt 0, [VInt 1; VStr "bar"; NaN]);
                        (LInt 1, [VInt 2; NaN; VInt 100])] |}.
Proof. reflexivity. Qed.

(** ** Bootstrap and provisioning *)

Section GlueProperties.
Context {St : Type} `{Driver St}.

(** [conexion_mongo] never raises: whatever happens inside, the handler
    of its [try] prints and the function returns. *)
Lemma conexion_mongo_never_raises (nombre_base_datos nombre_coleccion : string)
    (w : world St) :
  exists r w', conexion_mongo nombre_base_datos nombre_coleccion w = (Returns r, w')
               /\ server w' = server w.
Proof.
  unfold conexion_mongo, Eff.try_except, mbind, M_bind, Eff.bind, Eff.query.
  destruct (list_database_names _ _) as [dbs|e1]; simpl; [|eauto].
  destruct (decide _); simpl; [|eauto].
  destruct (list_collection_names _ _) as [colls|e2]; simpl; [|eauto].
  destruct (decide _); simpl; eauto.
Qed.

(** C7 (what the code does): when the database is not among the names
    the server lists, or the collection is not among those of the
    database, the [ValueError] raised inside the [try] is caught by its
    own handler: the function prints the error and returns [None]. *)
Theorem conexion_mongo_swallows_not_found
    (nombre_base_datos nombre_coleccion : string) (w : world St)
    (dbs : list string) :
  list_database_names MongoClient (server w) = Returns dbs ->
  nombre_base_datos ∉ dbs
  \/ (exists colls,
        list_collection_names (Database nombre_base_datos) (server w) = Returns colls
        /\ nombre_coleccion ∉ colls) ->
  exists msg,
    conexion_mongo nombre_base_datos nombre_coleccion w =
      (Returns None,
       mkWorld (server w) (stdout w ++ [ErrorConectar (ValueError msg)])).
Proof.
  intros Hdbs Hmissing.
  unfold conexion_mongo, Eff.try_except, mbind, M_bind, Eff.bind, Eff.query.
  rewrite Hdbs. simpl.
  destruct (decide (nombre_base_datos ∈ dbs)) as [Hin|Hnin]; simpl; [|eauto].
  destruct Hmissing as [Hnin|(colls & Hcolls & Hnin)]; [contradiction|].
  rewrite Hcolls. simpl.
  destruct (decide (nombre_coleccion ∈ colls)); [contradiction|]. simpl. eauto.
Qed.

(** C9 (what the code does): an argument that is neither a client nor a
    collection makes the check raise [TypeError] inside the [try], whose
    handler catches it: the function prints the error, creates nothing
    and returns [None]. *)
Theorem crear_bbbd_colecciones_swallows_type_error (conexion : pyobject)
    (nombre_base_datos : string) (nombre_colecciones : list string)
    (w : world St) :
  is_client_or_collection conexion = None ->
  exists msg,
    crear_bbbd_colecciones conexion nombre_base_datos nombre_colecciones w =
      (Returns None,
       mkWorld (server w) (stdout w ++ [ErrorCrear (TypeError msg)])).
Proof.
  intros Hno. unfold crear_bbbd_colecciones. rewrite Hno.
  unfold Eff.try_except, Eff.raise, mbind, M_bind, Eff.bind. simpl. eauto.
Qed.

(** [crear_bbbd_colecciones] never raises either. *)
Lemma crear_bbbd_colecciones_never_raises (conexion : pyobject)
    (nombre_base_datos : string) (nombre_colecciones : list string)
    (w : world St) :
  exists r w',
    crear_bbbd_colecciones conexion nombre_base_datos nombre_colecciones w
      = (Returns r, w').
Proof.
  unfold crear_bbbd_colecciones, Eff.try_except.
  destruct (match is_client_or_collection conexion with _ => _ end w)
    as [[r|e] w']; simpl; eauto.
Qed.
End GlueProperties.

Lemma conexion_mongo_swallows_not_found_witness :
  exists msg,
    conexion_mongo "lab" "bar" mundo_vacio =
      (Returns None, mkWorld ∅ [ErrorConectar (ValueError msg)]).
Proof.
  apply (conexion_mongo_swallows_not_found "lab" "bar" mundo_vacio []).
  - reflexivity.
  - left. apply not_elem_of_nil.
Defined.

Lemma crear_bbbd_colecciones_swallows_type_error_witness :
  exists msg,
    crear_bbbd_colecciones (Plain (VStr "localhost")) "lab" ["bar"; "park"] mundo_vacio =
      (Returns None, mkWorld ∅ [ErrorCrear (TypeError msg)]).
Proof.
  apply (crear_bbbd_colecciones_swallows_type_error
           (Plain (VStr "localhost")) "lab" ["bar"; "park"] mundo_vacio).
  reflexivity.
Defined.

(** ** Dictionaries *)

Section DictFacts.
Context {K V : Type} `{EqDecision K}.
Implicit Types (d l : list (K * V)).

Lemma get_None k d : PyDict.get k d = None <-> k ∉ PyDict.keys d.
Proof.
  unfold PyDict.keys. induction d as [|[k' v'] d IH]; simpl.
  - split; [intros _; apply not_elem_of_nil | reflexivity].
  - rewrite not_elem_of_cons. destruct (decide (k = k')) as [->|Hne].
    + split; [discriminate | intros [? _]; congruence].
    + rewrite IH. tauto.
Qed.

Lemma get_is_Some k d : is_Some (PyDict.get k d) <-> k ∈ PyDict.keys d.
Proof.
  rewrite <- not_eq_None_Some, get_None.
  destruct (decide (k ∈ PyDict.keys d)); tauto.
Qed.

Lemma get_Some_elem_of k v d : PyDict.get k d = Some v -> (k, v) ∈ d.
Proof.
  induction d as [|[k' v'] d IH]; simpl; [discriminate|].
  destruct (decide (k = k')) as [->|Hne].
  - intros [= ->]. left.
  - intros Hget. right. now apply IH.
Qed.

Lemma set_fresh k v d : k ∉ PyDict.keys d -> PyDict.set k v d = d ++ [(k, v)].
Proof.
  unfold PyDict.keys. induction d as [|[k' v'] d IH]; simpl; [reflexivity|].
  rewrite not_elem_of_cons. intros [Hne Hnin].
  destruct (decide (k = k')); [contradiction|]. now rewrite IH.
Qed.

Lemma keys_set k v d k' :
  k' ∈ PyDict.keys (PyDict.set k v d) <-> k' = k \/ k' ∈ PyDict.keys d.
Proof.
  unfold PyDict.keys. induction d as [|[k0 v0] d IH]; simpl.
  - rewrite elem_of_cons. tauto.
  - destruct (decide (k = k0)) as [->|Hne]; simpl; rewrite !elem_of_cons.
    + tauto.
    + rewrite IH. tauto.
Qed.

Lemma values_set k v d v' :
  v' ∈ PyDict.values (PyDict.set k v d) -> v' = v \/ v' ∈ PyDict.values d.
Proof.
  unfold PyDict.values. induction d as [|[k0 v0] d IH]; simpl.
  - rewrite elem_of_cons. tauto.
  - destruct (decide (k = k0)) as [->|Hne]; simpl; rewrite !elem_of_cons.
    + tauto.
    + intros [?|?]; [tauto|]. destruct IH; tauto.
Qed.

Lemma set_not_nil k v d : PyDict.set k v d <> [].
Proof. destruct d as [|[k' v'] d]; simpl; [|destruct (decide _)]; discriminate. Qed.

Lemma store_all_nil d : PyDict.store_all [] d = d.
Proof. reflexivity. Qed.

Lemma store_all_cons k v l d :
  PyDict.store_all ((k, v) :: l) d = PyDict.store_all l (PyDict.set k v d).
Proof. reflexivity. Qed.

Lemma keys_store_all l d k :
  k ∈ PyDict.keys (PyDict.store_all l d) <-> k ∈ PyDict.keys d \/ k ∈ l.*1.
Proof.
  revert d. induction l as [|[k' v'] l IH]; intros d.
  - rewrite store_all_nil, fmap_nil, elem_of_nil. tauto.
  - rewrite store_all_cons, IH, keys_set, fmap_cons, elem_of_cons. simpl. tauto.
Qed.

Lemma values_store_all l d v :
  v ∈ PyDict.values (PyDict.store_all l d) -> v ∈ PyDict.values d \/ v ∈ l.*2.
Proof.
  revert d. induction l as [|[k' v'] l IH]; intros d.
  - rewrite store_all_nil. tauto.
  - rewrite store_all_cons, fmap_cons, elem_of_cons. simpl.
    intros [Hin|Hin]%IH; [|tauto].
    apply values_set in Hin. tauto.
Qed.


Lemma store_all_fresh l d :
  NoDup (PyDict.keys d ++ l.*1) -> PyDict.store_all l d = d ++ l.
Proof.
  revert d. induction l as [|[k' v'] l IH]; intros d.
  - intros _. now rewrite store_all_nil, app_nil_r.
  - rewrite store_all_cons, fmap_cons. simpl. intros Hnd.
    apply NoDup_app in Hnd as (Hd & Hdisj & Hl).
    apply NoDup_cons in Hl as [Hk' Hl].
    assert (Hfresh : k' ∉ PyDict.keys d).
    { intros Hin. apply (Hdisj _ Hin). left. }
    rewrite set_fresh by assumption.
    rewrite IH, <- app_assoc; [reflexivity|].
    unfold PyDict.keys. rewrite fmap_app. simpl.
    apply NoDup_app. split; [|split].
    + apply NoDup_app. split; [assumption|]. split; [|apply NoDup_singleton].
      intros x Hx ->%list_elem_of_singleton. contradiction.
    + intros x [Hx| ->%list_elem_of_singleton]%elem_of_app.
      * intros Hxl. apply (Hdisj _ Hx). now right.
      * assumption.
    + assumption.
Qed.

Lemma keys_literal l k : k ∈ PyDict.keys (PyDict.literal l) <-> k ∈ l.*1.
Proof.
  unfold PyDict.literal, PyDict.empty.
  rewrite keys_store_all. unfold PyDict.keys. simpl. rewrite elem_of_nil. tauto.
Qed.

Lemma values_literal l v : v ∈ PyDict.values (PyDict.literal l) -> v ∈ l.*2.
Proof.
  unfold PyDict.literal, PyDict.empty.
  intros [Hin|Hin]%values_store_all; [|assumption].
  unfold PyDict.values in Hin. simpl in Hin. now apply elem_of_nil in Hin.
Qed.


(** A display whose keys are distinct stores its entries as written. *)
Lemma literal_NoDup l : NoDup l.*1 -> PyDict.literal l = l.
Proof. intros Hnd. apply (store_all_fresh l []). exact Hnd. Qed.
End DictFacts.

(** ** Bulk insertion: the table side *)



(** Every dictionary of [df.T.to_dict().values()] is the dictionary of a
    row of the table. *)
Lemma T_to_dict_values_rows (df : DataFrame) (d : dict) :
  d ∈ T_to_dict_values df ->
  exists row, row ∈ rows df /\ d = row_dict (columns df) row.2.
Proof.
  unfold T_to_dict_values. intros Hin. apply values_literal in Hin.
  rewrite <- list_fmap_compose in Hin.
  apply list_elem_of_fmap in Hin as (row & -> & Hrow). now exists row.
Qed.


(** With distinct row labels there is one dictionary per row, in order. *)
Lemma T_to_dict_values_NoDup (df : DataFrame) :
  NoDup (rows df).*1 ->
  T_to_dict_values df = (fun row => row_dict (columns df) row.2) <$> rows df.
Proof.
  intros Hnd. unfold T_to_dict_values. rewrite literal_NoDup.
  - unfold PyDict.values. now rewrite <- list_fmap_compose.
  - now rewrite <- list_fmap_compose.
Qed.



Section InsertionProperties.
Context {St : Type} `{Driver St}.


(** C8 (the failing input): two rows of one category with the same row
    label and different identifiers.  [df.T.to_dict()] keeps one
    dictionary for the label, the last row's, so the only document that
    reaches the driver is that of "b"; the row of "a" is neither inserted
    nor reported. *)
Theorem insertar_drops_rows_sharing_a_label (base_datos : handle) (w : world St) :
  T_to_dict_values df_etiqueta_repetida =
    [[("fsq_id", VStr "b"); ("category", VStr "bar"); ("name", VStr "B")]]
  /\ insertar_datos_en_colecciones df_etiqueta_repetida base_datos ["bar"] w =
       insertar_documentos (getitem base_datos "bar") "bar"
         [[("_id", VStr "b"); ("category", VStr "bar"); ("name", VStr "B")]] w.
Proof.
  split; [reflexivity|].
  cbn [insertar_datos_en_colecciones].
  unfold mbind, M_bind, Eff.bind, Eff.lift. simpl.
  change (PyDict.literal
            [("_id", VStr "b"); ("category", VStr "bar"); ("name", VStr "B")])
    with [("_id", VStr "b"); ("category", VStr "bar"); ("name", VStr "B")].
  unfold mbind, M_bind, Eff.bind.
  match goal with
  | |- context [Eff.try_except ?m ?h w] =>
      destruct (Eff.try_except m h w) as [[[]|e] w']
  end; reflexivity.
Qed.
End InsertionProperties.


(** On the model server, from an empty database: after the call the
    collection holds the document of "b" alone and nothing was printed. *)
Example insertar_etiqueta_repetida_mongo :
  let '(r, w) :=
    insertar_datos_en_colecciones df_etiqueta_repetida (Database "lab") ["bar"] mundo_vacio in
  r = Returns tt
  /\ Mongo.documents "lab" "bar" (server w) =
       [[("_id", VStr "b"); ("category", VStr "bar"); ("name", VStr "B")]]
  /\ stdout w = [].
Proof. vm_compute. repeat split. Qed.

(** ** Bulk insertion on the model server *)

Lemma insertar_documentos_cons {St : Type} `{Driver St} (coleccion : handle)
    (categoria : string) (d : dict) (ds : list dict) (w : world St) :
  insertar_documentos coleccion categoria (d :: ds) w =
    match insertar_documentos coleccion categoria [d] w with
    | (Returns _, w1) => insertar_documentos coleccion categoria ds w1
    | (Raises e, w1) => (Raises e, w1)
    end.
Proof.
  cbn [insertar_documentos]. unfold mbind, M_bind, Eff.bind.
  match goal with
  | |- context [Eff.try_except ?m ?h w] => destruct (Eff.try_except m h w) as [[[]|e] w1]
  end; reflexivity.
Qed.

Module MongoFacts.
Import Mongo.

Lemma grows_refl (s : state) : grows s s.
Proof. intros db coll. reflexivity. Qed.

Lemma grows_trans (s1 s2 s3 : state) : grows s1 s2 -> grows s2 s3 -> grows s1 s3.
Proof. intros H12 H23 db coll. etransitivity; [apply H12 | apply H23]. Qed.

Lemma grows_elem_of (s s' : state) (db coll : string) (d : dict) :
  grows s s' -> d ∈ documents db coll s -> d ∈ documents db coll s'.
Proof.
  intros Hg Hin. destruct (Hg db coll) as [added ->].
  apply elem_of_app. now left.
Qed.

Lemma grows_stored_id (s s' : state) (db coll : string) (id : value) :
  grows s s' -> stored_id db coll id s -> stored_id db coll id s'.
Proof.
  intros Hg (d & Hin & Hid). exists d. split; [|assumption].
  eapply grows_elem_of; eauto.
Qed.

Lemma documents_store (db coll : string) (docs : list dict) (s : state) :
  documents db coll (store db coll docs s) = docs.
Proof.
  unfold documents, collections, store.
  now rewrite lookup_insert_eq; simpl; rewrite lookup_insert_eq.
Qed.

Lemma documents_store_other (db coll db' coll' : string) (docs : list dict)
    (s : state) :
  (db', coll') <> (db, coll) ->
  documents db' coll' (store db coll docs s) = documents db' coll' s.
Proof.
  intros Hne. unfold documents, collections, store.
  destruct (decide (db = db')) as [<-|Hdb].
  - rewrite lookup_insert_eq. simpl. rewrite lookup_insert_ne; [reflexivity|].
    intros <-. now apply Hne.
  - now rewrite lookup_insert_ne.
Qed.

Lemma grows_store (db coll : string) (added : list dict) (s : state) :
  grows s (store db coll (documents db coll s ++ added) s).
Proof.
  intros db' coll'. destruct (decide ((db', coll') = (db, coll))) as [[= -> ->]|Hne].
  - rewrite documents_store. now exists added.
  - now rewrite documents_store_other.
Qed.

Lemma existsb_has_id (db coll : string) (id : value) (s : state) :
  existsb (has_id id) (documents db coll s) = true <-> stored_id db coll id s.
Proof.
  rewrite existsb_exists. unfold stored_id, has_id. split.
  - intros (d & Hin%list_elem_of_In & Hid%bool_decide_eq_true). now exists d.
  - intros (d & Hin & Hid). exists d. split; [now apply list_elem_of_In|].
    now apply bool_decide_eq_true.
Qed.

(** One turn of the loop: a conflict is printed and the server is as it
    was; otherwise the document is appended to its collection. *)
Lemma insertar_documento (db coll : string) (d : dict) (id : value)
    (w : world state) :
  PyDict.get "_id" d = Some id ->
  insertar_documentos (CollectionOf db coll) coll [d] w =
    if existsb (has_id id) (documents db coll (server w))
    then (Returns tt, mkWorld (server w) (stdout w ++ [IdYaExiste id]))
    else (Returns tt,
          mkWorld (store db coll (documents db coll (server w) ++ [d]) (server w))
                  (stdout w)).
Proof.
  intros Hid. cbn [insertar_documentos].
  unfold mbind, M_bind, Eff.bind, Eff.try_except, Eff.call. simpl.
  unfold insert. rewrite Hid.
  destruct (existsb _ _); simpl; try rewrite Hid; reflexivity.
Qed.

(** The loop over the documents of one category. *)
Lemma insertar_documentos_mongo (db coll : string) (docs : list dict)
    (w : world state) :
  Forall (fun d => is_Some (PyDict.get "_id" d)) docs ->
  exists w' msgs,
    insertar_documentos (CollectionOf db coll) coll docs w = (Returns tt, w')
    /\ grows (server w) (server w')
    /\ stdout w' = stdout w ++ msgs
    /\ forall d id, d ∈ docs -> PyDict.get "_id" d = Some id ->
         stored_id db coll id (server w')
         /\ (d ∈ documents db coll (server w') \/ IdYaExiste id ∈ msgs)
         /\ (stored_id db coll id (server w) -> IdYaExiste id ∈ msgs).
Proof.
  intros Hids. revert w. induction Hids as [|d ds [id Hid] _ IH]; intros w.
  - exists w, []. split; [reflexivity|]. split; [apply grows_refl|].
    split; [now rewrite app_nil_r|]. intros d id Hin. now apply elem_of_nil in Hin.
  - rewrite insertar_documentos_cons, (insertar_documento _ _ _ id) by assumption.
    destruct (existsb _ _) eqn:Hdup.
    + apply existsb_has_id in Hdup.
      destruct (IH (mkWorld (server w) (stdout w ++ [IdYaExiste id])))
        as (w' & msgs & Hrun & Hg & Hout & Hdocs). simpl in Hg, Hout.
      exists w', (IdYaExiste id :: msgs). split; [exact Hrun|].
      split; [exact Hg|]. split; [now rewrite Hout, <- app_assoc|].
      intros d' id' [->|Hin]%elem_of_cons Hid'.
      * assert (id' = id) as -> by congruence.
        split; [eapply grows_stored_id; eauto|]. split; [right; left|intros _; left].
      * destruct (Hdocs d' id' Hin Hid') as (H1 & H2 & H3). simpl in H3.
        split; [exact H1|]. split.
        -- destruct H2 as [H2|H2]; [now left | right; now right].
        -- intros Hpre. right. now apply H3.
    + destruct (IH (mkWorld
                      (store db coll (documents db coll (server w) ++ [d]) (server w))
                      (stdout w)))
        as (w' & msgs & Hrun & Hg & Hout & Hdocs). simpl in Hg, Hout.
      pose proof (grows_store db coll [d] (server w)) as Hg1.
      exists w', msgs. split; [exact Hrun|].
      split; [eapply grows_trans; eauto|]. split; [exact Hout|].
      assert (Hd : d ∈ documents db coll (server w')).
      { eapply grows_elem_of; [exact Hg|]. rewrite documents_store.
        apply elem_of_app. right. left. }
      intros d' id' [->|Hin]%elem_of_cons Hid'.
      * assert (id' = id) as -> by congruence.
        split; [now exists d|]. split; [now left|].
        intros Hpre%existsb_has_id. congruence.
      * destruct (Hdocs d' id' Hin Hid') as (H1 & H2 & H3). simpl in H3.
        split; [exact H1|]. split; [exact H2|].
        intros Hpre. apply H3. eapply grows_stored_id; eauto.
Qed.
Lemma rename_id_row (cols : list string) (cells : list value) :
  "fsq_id" ∈ cols -> length cells = length cols ->
  exists doc id, rename_id (row_dict cols cells) = Returns doc
                 /\ PyDict.get "_id" doc = Some id.
Proof.
  intros Hcol Hlen.
  assert (Hkey : is_Some (PyDict.get "fsq_id" (row_dict cols cells))).
  { apply get_is_Some. unfold row_dict. apply keys_literal.
    rewrite fst_zip; [assumption|]. now rewrite Hlen. }
  destruct Hkey as [v Hv]. unfold rename_id, PyDict.pop. rewrite Hv.
  set (doc := PyDict.literal _).
  assert (Hid : is_Some (PyDict.get "_id" doc)).
  { apply get_is_Some. unfold doc. apply keys_literal. left. }
  destruct Hid as [id Hid]. now exists doc, id.
Qed.

Lemma rename_ids_rows (cols : list string) (rs : list (label * list value)) :
  "fsq_id" ∈ cols ->
  Forall (fun row => length row.2 = length cols) rs ->
  exists docs,
    rename_ids ((fun row => row_dict cols row.2) <$> rs) = Returns docs
    /\ Forall (fun d => is_Some (PyDict.get "_id" d)) docs
    /\ forall row, row ∈ rs ->
         exists doc, rename_id (row_dict cols row.2) = Returns doc /\ doc ∈ docs.
Proof.
  intros Hcol Hlen. induction Hlen as [|row rs Hrow _ IH].
  - exists []. split; [reflexivity|]. split; [constructor|].
    intros row Hin. now apply elem_of_nil in Hin.
  - destruct IH as (docs & Hdocs & Hids & Hall).
    destruct (rename_id_row cols row.2 Hcol Hrow) as (doc & id & Hdoc & Hid).
    exists (doc :: docs). rewrite fmap_cons. cbn [rename_ids].
    rewrite Hdoc. unfold mbind at 1, outcome_bind at 1. rewrite Hdocs.
    split; [reflexivity|]. split; [constructor; eauto|].
    intros row' [->|Hin]%elem_of_cons.
    + exists doc. split; [assumption|left].
    + destruct (Hall row' Hin) as (doc' & Hdoc' & Hin'). exists doc'.
      split; [assumption|now right].
Qed.

(** On the model server, for a table that has the "category" and "fsq_id"
    columns, distinct column labels, one cell per column in every row and
    distinct row labels:
    the call returns; what was stored stays as it was; every row of a
    selected category has a document, whose [_id] is stored afterwards;
    the document has been inserted or its conflict has been printed, and
    it has been printed whenever the [_id] was stored before the call. *)
Lemma insertar_skips_conflicts_and_inserts_the_rest (df : DataFrame)
    (db : string) (nombre_categorias : list string) (w : world state) :
  NoDup (columns df) ->
  "category" ∈ columns df ->
  "fsq_id" ∈ columns df ->
  Forall (fun row => length row.2 = length (columns df)) (rows df) ->
  NoDup (rows df).*1 ->
  exists w' msgs,
    insertar_datos_en_colecciones df (Database db) nombre_categorias w
      = (Returns tt, w')
    /\ grows (server w) (server w')
    /\ stdout w' = stdout w ++ msgs
    /\ forall row categoria,
         row ∈ rows df -> has_category categoria (columns df) row ->
         categoria ∈ nombre_categorias ->
         exists doc id,
           rename_id (row_dict (columns df) row.2) = Returns doc
           /\ PyDict.get "_id" doc = Some id
           /\ stored_id db categoria id (server w')
           /\ (doc ∈ documents db categoria (server w') \/ IdYaExiste id ∈ msgs)
           /\ (stored_id db categoria id (server w) -> IdYaExiste id ∈ msgs).
Proof.
  intros _ Hcategory Hfsq Hlen Hlabels. revert w.
  induction nombre_categorias as [|a resto IH]; intros w.
  - exists w, []. split; [reflexivity|]. split; [apply grows_refl|].
    split; [now rewrite app_nil_r|]. intros row c _ _ Hin. now apply elem_of_nil in Hin.
  - cbn [insertar_datos_en_colecciones].
    unfold mbind at 1, M_bind at 1, Eff.bind at 1, Eff.lift at 1, filter_category.
    destruct (decide ("category" ∈ columns df)); [|contradiction].
    set (rows_a := filter (has_category a (columns df)) (rows df)).
    rewrite T_to_dict_values_NoDup; simpl.
    2:{ eapply sublist_NoDup; [exact Hlabels|].
        apply fmap_sublist, sublist_filter. }
    destruct (rename_ids_rows (columns df) rows_a Hfsq) as (docs & Hdocs & Hids & Hall).
    { unfold rows_a. apply Forall_forall. intros row [_ Hin]%list_elem_of_filter.
      rewrite Forall_forall in Hlen. now apply Hlen. }
    unfold mbind at 1, M_bind at 1, Eff.bind at 1, Eff.lift at 1.
    fold rows_a. rewrite Hdocs.
    destruct (insertar_documentos_mongo db a docs w Hids)
      as (w1 & msgs1 & Hrun1 & Hg1 & Hout1 & Hdocs1).
    destruct (IH w1) as (w' & msgs2 & Hrun2 & Hg2 & Hout2 & Hrows2).
    exists w', (msgs1 ++ msgs2).
    split.
    { unfold mbind, M_bind, Eff.bind. simpl getitem. rewrite Hrun1. exact Hrun2. }
    split; [eapply grows_trans; eauto|].
    split; [now rewrite Hout2, Hout1, <- app_assoc|].
    intros row c Hrow Hcat [->|Hsel]%elem_of_cons.
    + destruct (Hall row) as (doc & Hdoc & Hin).
      { unfold rows_a. apply list_elem_of_filter. now split. }
      assert (Hid : is_Some (PyDict.get "_id" doc)).
      { rewrite Forall_forall in Hids. now apply Hids. }
      destruct Hid as [id Hid]. exists doc, id.
      destruct (Hdocs1 doc id Hin Hid) as (H1 & H2 & H3).
      split; [assumption|]. split; [assumption|].
      split; [eapply grows_stored_id; eauto|]. split.
      * destruct H2 as [H2|H2].
        -- left. eapply grows_elem_of; eauto.
        -- right. apply elem_of_app. now left.
      * intros Hpre. apply elem_of_app. left. now apply H3.
    + destruct (Hrows2 row c Hrow Hcat Hsel) as (doc & id & Hdoc & Hid & H1 & H2 & H3).
      exists doc, id. split; [assumption|]. split; [assumption|].
      split; [assumption|]. split.
      * destruct H2 as [H2|H2]; [now left|]. right. apply elem_of_app. now right.
      * intros Hpre. apply elem_of_app. right. apply H3.
        eapply grows_stored_id; eauto.
Qed.
(** The spec's scenario: of two rows with the identifier "abc" the first is
    inserted and the second is reported; the row after them is inserted. *)
Example insertar_mismo_id :
  let '(r, w) :=
    insertar_datos_en_colecciones df_mismo_id (Database "lab") ["bar"] mundo_vacio in
  r = Returns tt
  /\ documents "lab" "bar" (server w) =
       [[("_id", VStr "abc"); ("category", VStr "bar"); ("name", VStr "A")];
        [("_id", VStr "xyz"); ("category", VStr "bar"); ("name", VStr "C")]]
  /\ stdout w = [IdYaExiste (VStr "abc")].
Proof. vm_compute. repeat split. Qed.

(** The same batch satisfies the conditions of the lemma above. *)
Example insertar_mismo_id_conditions :
  NoDup (columns df_mismo_id)
  /\ "category" ∈ columns df_mismo_id
  /\ "fsq_id" ∈ columns df_mismo_id
  /\ Forall (fun row => length row.2 = length (columns df_mismo_id)) (rows df_mismo_id)
  /\ NoDup (rows df_mismo_id).*1.
Proof.
  split; [apply (bool_decide_unpack _); reflexivity|].
  split; [apply (bool_decide_unpack _); reflexivity|].
  split; [apply (bool_decide_unpack _); reflexivity|].
  split; [repeat constructor|].
  apply (bool_decide_unpack _). reflexivity.
Qed.
End MongoFacts.

(** * Further properties *)

(** ** Lookups in dictionaries *)

Section DictLookups.
Context {K V : Type} `{EqDecision K}.
Implicit Types (d l : list (K * V)).

Lemma get_set k k' v d :
  PyDict.get k (PyDict.set k' v d) = if decide (k = k') then Some v else PyDict.get k d.
Proof.
  induction d as [|[k0 v0] d IH]; simpl.
  - reflexivity.
  - destruct (decide (k' = k0)) as [->|Hne]; simpl.
    + destruct (decide (k = k0)); reflexivity.
    + rewrite IH. destruct (decide (k = k0)) as [->|]; [|reflexivity].
      destruct (decide (k0 = k')); [congruence|reflexivity].
Qed.

Lemma get_app k d1 d2 :
  PyDict.get k (d1 ++ d2) =
    match PyDict.get k d1 with Some v => Some v | None => PyDict.get k d2 end.
Proof.
  induction d1 as [|[k0 v0] d1 IH]; simpl; [reflexivity|].
  destruct (decide (k = k0)); [reflexivity|apply IH].
Qed.

(** After a run of stores a key holds the last value stored for it. *)
Lemma get_store_all k l d :
  PyDict.get k (PyDict.store_all l d) =
    match PyDict.get k (reverse l) with Some v => Some v | None => PyDict.get k d end.
Proof.
  revert d. induction l as [|[k' v'] l IH]; intros d.
  - reflexivity.
  - rewrite store_all_cons, IH, reverse_cons, get_app, get_set. simpl.
    destruct (PyDict.get k (reverse l)); [reflexivity|].
    destruct (decide (k = k')); reflexivity.
Qed.

Lemma get_literal k l : PyDict.get k (PyDict.literal l) = PyDict.get k (reverse l).
Proof.
  unfold PyDict.literal, PyDict.empty. rewrite get_store_all.
  destruct (PyDict.get k (reverse l)); reflexivity.
Qed.




Lemma elem_of_get k v d : NoDup (PyDict.keys d) -> (k, v) ∈ d -> PyDict.get k d = Some v.
Proof.
  unfold PyDict.keys. induction d as [|[k0 v0] d IH]; simpl.
  - intros _ Hin. now apply elem_of_nil in Hin.
  - rewrite NoDup_cons. intros [Hnin Hnd] [[= -> ->]|Hin]%elem_of_cons.
    + destruct (decide (k0 = k0)); [reflexivity|congruence].
    + destruct (decide (k = k0)) as [->|]; [|now apply IH].
      exfalso. apply Hnin. apply list_elem_of_fmap. now exists (k0, v).
Qed.

Lemma get_reverse_NoDup k d :
  NoDup (PyDict.keys d) -> PyDict.get k (reverse d) = PyDict.get k d.
Proof.
  intros Hnd. destruct (PyDict.get k d) as [v|] eqn:Hget.
  - apply elem_of_get.
    + unfold PyDict.keys. now rewrite fmap_reverse, reverse_Permutation.
    + apply elem_of_reverse. now apply get_Some_elem_of.
  - apply get_None. apply get_None in Hget.
    unfold PyDict.keys in *. rewrite fmap_reverse, elem_of_reverse. exact Hget.
Qed.

Lemma get_remove_ne k k' d :
  k <> k' -> PyDict.get k (PyDict.remove k' d) = PyDict.get k d.
Proof.
  intros Hne. induction d as [|[k0 v0] d IH]; simpl; [reflexivity|].
  destruct (decide (k' = k0)) as [->|Hne']; simpl.
  - destruct (decide (k = k0)); [congruence|reflexivity].
  - rewrite IH. reflexivity.
Qed.

Lemma keys_remove k k' d :
  k ∈ PyDict.keys (PyDict.remove k' d) -> k ∈ PyDict.keys d.
Proof.
  unfold PyDict.keys. induction d as [|[k0 v0] d IH]; simpl; [tauto|].
  destruct (decide (k' = k0)); simpl; rewrite !elem_of_cons; tauto.
Qed.

Lemma NoDup_keys_remove k d :
  NoDup (PyDict.keys d) -> NoDup (PyDict.keys (PyDict.remove k d)).
Proof.
  unfold PyDict.keys. induction d as [|[k0 v0] d IH]; simpl; [tauto|].
  rewrite NoDup_cons. intros [Hnin Hnd].
  destruct (decide (k = k0)); simpl; [assumption|].
  apply NoDup_cons. split; [|now apply IH].
  intros Hin. apply Hnin. now apply (keys_remove k0 k d).
Qed.

Lemma get_remove_eq k d :
  NoDup (PyDict.keys d) -> PyDict.get k (PyDict.remove k d) = None.
Proof.
  unfold PyDict.keys. induction d as [|[k0 v0] d IH]; simpl; [reflexivity|].
  rewrite NoDup_cons. intros [Hnin Hnd].
  destruct (decide (k = k0)) as [->|Hne]; simpl.
  - now apply get_None.
  - destruct (decide (k = k0)); [congruence|now apply IH].
Qed.


Lemma head_keys_set k v d :
  d <> [] -> head (PyDict.keys (PyDict.set k v d)) = head (PyDict.keys d).
Proof.
  destruct d as [|[k0 v0] d]; [contradiction|]. intros _. simpl.
  destruct (decide (k = k0)); reflexivity.
Qed.

Lemma head_keys_store_all l d :
  d <> [] -> head (PyDict.keys (PyDict.store_all l d)) = head (PyDict.keys d).
Proof.
  revert d. induction l as [|[k' v'] l IH]; intros d Hd; [reflexivity|].
  rewrite store_all_cons, IH by apply set_not_nil. now apply head_keys_set.
Qed.
End DictLookups.

(** ** The rows that become documents *)


(** X2: for a row dictionary with distinct keys that has "fsq_id", the
    document starts with "_id", has no "fsq_id" and keeps every other
    entry; its "_id" is the value of "fsq_id", unless the row has an "_id"
    entry of its own, whose value then is the document's "_id". *)
Theorem rename_id_entries (d : dict) (v : value) :
  NoDup (PyDict.keys d) ->
  PyDict.get "fsq_id" d = Some v ->
  exists doc,
    rename_id d = Returns doc
    /\ head (PyDict.keys doc) = Some "_id"
    /\ PyDict.get "_id" doc = Some (default v (PyDict.get "_id" d))
    /\ PyDict.get "fsq_id" doc = None
    /\ forall k, k <> "_id" -> k <> "fsq_id" -> PyDict.get k doc = PyDict.get k d.
Proof.
  intros Hnd Hv. unfold rename_id, PyDict.pop. rewrite Hv.
  set (d' := PyDict.remove "fsq_id" d).
  assert (Hnd' : NoDup (PyDict.keys d')) by now apply NoDup_keys_remove.
  exists (PyDict.literal (("_id", v) :: d')). split; [reflexivity|].
  assert (Hget : forall k, PyDict.get k (PyDict.literal (("_id", v) :: d')) =
                   match PyDict.get k d' with
                   | Some x => Some x
                   | None => if decide (k = "_id") then Some v else None
                   end).
  { intros k. rewrite get_literal, reverse_cons, get_app, get_reverse_NoDup by assumption.
    reflexivity. }
  split.
  { unfold PyDict.literal. rewrite store_all_cons.
    now rewrite head_keys_store_all by discriminate. }
  split.
  { rewrite Hget. unfold d'. rewrite get_remove_ne by discriminate.
    destruct (PyDict.get "_id" d); reflexivity. }
  split.
  { rewrite Hget. unfold d'. now rewrite get_remove_eq. }
  intros k Hid Hfsq. rewrite Hget. unfold d'. rewrite get_remove_ne by assumption.
  destruct (PyDict.get k d); [reflexivity|].
  destruct (decide (k = "_id")); [contradiction|reflexivity].
Qed.

Lemma rename_id_entries_witness :
  exists doc,
    rename_id fila_con_id = Returns doc
    /\ head (PyDict.keys doc) = Some "_id"
    /\ PyDict.get "_id" doc = Some (default (VStr "a") (PyDict.get "_id" fila_con_id))
    /\ PyDict.get "fsq_id" doc = None
    /\ forall k, k <> "_id" -> k <> "fsq_id" ->
         PyDict.get k doc = PyDict.get k fila_con_id.
Proof.
  apply (rename_id_entries fila_con_id (VStr "a")).
  - apply (bool_decide_unpack _). reflexivity.
  - reflexivity.
Defined.

(** The row that has its own "_id": the stored identifier is 7, not "a". *)
Example rename_id_fila_con_id :
  rename_id fila_con_id = Returns [("_id", VInt 7); ("name", VStr "A")].
Proof. reflexivity. Qed.

(** ** Bulk insertion, whatever the driver *)

Lemma rename_id_has_id (d doc : dict) :
  rename_id d = Returns doc -> is_Some (PyDict.get "_id" doc).
Proof.
  unfold rename_id. destruct (PyDict.pop "fsq_id" d) as [[id d']|]; [|discriminate].
  intros [= <-]. apply get_is_Some, keys_literal. left.
Qed.

Lemma rename_ids_outcome (l : list dict) :
  (exists docs, rename_ids l = Returns docs
                /\ Forall (fun d => is_Some (PyDict.get "_id" d)) docs
                /\ Forall2 (fun d doc => rename_id d = Returns doc) l docs)
  \/ rename_ids l = Raises (KeyError "fsq_id").
Proof.
  induction l as [|d l IH]; simpl.
  - left. exists []. repeat split; constructor.
  - destruct (rename_id d) as [doc|e] eqn:Hd.
    + destruct IH as [(docs & -> & Hids & Hall)| -> ]; simpl; [|now right].
      left. exists (doc :: docs). split; [reflexivity|]. split.
      * constructor; [now apply rename_id_has_id in Hd|assumption].
      * now constructor.
    + right. unfold rename_id in Hd.
      destruct (PyDict.pop "fsq_id" d) as [[id d']|]; [discriminate|].
      now injection Hd as <-.
Qed.

Section InsertionAnyDriver.
Context {St : Type} `{Driver St}.

(** One turn of the outer loop. *)
Lemma insertar_datos_en_colecciones_cons (df : DataFrame) (base_datos : handle)
    (categoria : string) (resto : list string) (w : world St) :
  insertar_datos_en_colecciones df base_datos (categoria :: resto) w =
    match filter_category df categoria with
    | Raises e => (Raises e, w)
    | Returns df_insertar =>
        match rename_ids (T_to_dict_values df_insertar) with
        | Raises e => (Raises e, w)
        | Returns docs =>
            match insertar_documentos (getitem base_datos categoria) categoria docs w with
            | (Returns _, w1) => insertar_datos_en_colecciones df base_datos resto w1
            | (Raises e, w1) => (Raises e, w1)
            end
        end
    end.
Proof.
  cbn [insertar_datos_en_colecciones].
  unfold mbind at 1, M_bind at 1, Eff.bind at 1, Eff.lift at 1.
  destruct (filter_category df categoria) as [df_a|e]; [|reflexivity].
  unfold mbind at 1, M_bind at 1, Eff.bind at 1, Eff.lift at 1.
  destruct (rename_ids _) as [docs|e]; [|reflexivity].
  unfold mbind, M_bind, Eff.bind.
  destruct (insertar_documentos _ _ _ w) as [[[]|e] w1]; reflexivity.
Qed.

(** The loop over the documents returns whatever the driver does, as long
    as the documents have an "_id". *)
Lemma insertar_documentos_returns (coleccion : handle) (categoria : string)
    (docs : list dict) (w : world St) :
  Forall (fun d => is_Some (PyDict.get "_id" d)) docs ->
  exists w', insertar_documentos coleccion categoria docs w = (Returns tt, w').
Proof.
  intros Hids. revert w. induction Hids as [|d ds [id Hid] _ IH]; intros w.
  - now exists w.
  - cbn [insertar_documentos]. unfold mbind, M_bind, Eff.bind, Eff.try_except, Eff.call.
    destruct (insert_one coleccion d (server w)) as [[[]|e] s]; [apply IH|].
    rewrite Hid. destruct e; simpl; apply IH.
Qed.

(** X3: without a "category" column the first turn of the loop raises
    [KeyError] for "category"; the server is as it was and nothing has been
    printed. *)
Theorem insertar_without_category_raises (df : DataFrame) (base_datos : handle)
    (nombre_categorias : list string) (w : world St) :
  "category" ∉ columns df ->
  nombre_categorias <> [] ->
  insertar_datos_en_colecciones df base_datos nombre_categorias w
    = (Raises (KeyError "category"), w).
Proof.
  intros Hcol Hcats. destruct nombre_categorias as [|a resto]; [contradiction|].
  rewrite insertar_datos_en_colecciones_cons. unfold filter_category.
  destruct (decide ("category" ∈ columns df)); [contradiction|reflexivity].
Qed.

(** X4: when the table (its column labels distinct) has the "category"
    column and none of its rows is of a selected category, the call returns
    without a call to the driver and without a line printed, also when the
    table has no "fsq_id" column. *)
Theorem insertar_nothing_selected (df : DataFrame) (base_datos : handle)
    (nombre_categorias : list string) (w : world St) :
  NoDup (columns df) ->
  "category" ∈ columns df ->
  (forall row categoria, row ∈ rows df -> categoria ∈ nombre_categorias ->
                         ~ has_category categoria (columns df) row) ->
  insertar_datos_en_colecciones df base_datos nombre_categorias w = (Returns tt, w).
Proof.
  intros _ Hcol Hnone. induction nombre_categorias as [|a resto IH]; [reflexivity|].
  rewrite insertar_datos_en_colecciones_cons. unfold filter_category.
  destruct (decide ("category" ∈ columns df)); [|contradiction].
  assert (Hnil : filter (has_category a (columns df)) (rows df) = []).
  { destruct (filter _ _) as [|row rs] eqn:Hf; [reflexivity|]. exfalso.
    assert (Hin : row ∈ filter (has_category a (columns df)) (rows df))
      by (rewrite Hf; left).
    apply list_elem_of_filter in Hin as [Hcat Hin].
    apply (Hnone row a Hin); [left|assumption]. }
  unfold T_to_dict_values. simpl. rewrite Hnil. simpl.
  apply IH. intros row c Hrow Hc. apply Hnone; [assumption|now right].
Qed.

(** X5: on a table with distinct column labels, whatever the driver does,
    the only exceptions that leave the call are the two lookup errors of
    the table side: [KeyError] for "category" and [KeyError] for "fsq_id".
    An error of [insert_one] never does. *)
Theorem insertar_raises_only_KeyError (df : DataFrame) (base_datos : handle)
    (nombre_categorias : list string) (w : world St) :
  NoDup (columns df) ->
  exists w',
    insertar_datos_en_colecciones df base_datos nombre_categorias w = (Returns tt, w')
    \/ insertar_datos_en_colecciones df base_datos nombre_categorias w
         = (Raises (KeyError "category"), w')
    \/ insertar_datos_en_colecciones df base_datos nombre_categorias w
         = (Raises (KeyError "fsq_id"), w').
Proof.
  intros _. revert w. induction nombre_categorias as [|a resto IH]; intros w.
  - exists w. now left.
  - rewrite insertar_datos_en_colecciones_cons. unfold filter_category.
    destruct (decide ("category" ∈ columns df)); [|exists w; right; now left].
    destruct (rename_ids_outcome (T_to_dict_values
      {| columns := columns df;
         rows := filter (has_category a (columns df)) (rows df) |}))
      as [(docs & -> & Hids & _)| ->]; [|exists w; right; now right].
    destruct (insertar_documentos_returns (getitem base_datos a) a docs w Hids)
      as [w1 ->].
    apply IH.
Qed.

End InsertionAnyDriver.

Lemma insertar_without_category_raises_witness :
  insertar_datos_en_colecciones df_sin_category (Database "lab") ["bar"] mundo_vacio
    = (Raises (KeyError "category"), mundo_vacio).
Proof.
  apply (insertar_without_category_raises df_sin_category (Database "lab") ["bar"]
           mundo_vacio).
  - apply (bool_decide_unpack _). reflexivity.
  - discriminate.
Defined.

Lemma insertar_nothing_selected_witness :
  insertar_datos_en_colecciones df_sin_fsq_id (Database "lab") ["museum"; "cafe"]
    mundo_vacio = (Returns tt, mundo_vacio).
Proof.
  apply (insertar_nothing_selected df_sin_fsq_id (Database "lab") ["museum"; "cafe"]
           mundo_vacio).
  - apply (bool_decide_unpack _). reflexivity.
  - apply (bool_decide_unpack _). reflexivity.
  - intros row categoria Hrow Hcat. revert row Hrow. apply Forall_forall.
    revert categoria Hcat. apply Forall_forall.
    repeat constructor; discriminate.
Defined.


Lemma insertar_raises_only_KeyError_witness :
  exists w',
    insertar_datos_en_colecciones df_sin_fsq_id (Database "lab") ["park"; "bar"]
      mundo_vacio = (Returns tt, w')
    \/ insertar_datos_en_colecciones df_sin_fsq_id (Database "lab") ["park"; "bar"]
         mundo_vacio = (Raises (KeyError "category"), w')
    \/ insertar_datos_en_colecciones df_sin_fsq_id (Database "lab") ["park"; "bar"]
         mundo_vacio = (Raises (KeyError "fsq_id"), w').
Proof.
  apply (insertar_raises_only_KeyError df_sin_fsq_id (Database "lab") ["park"; "bar"]
           mundo_vacio).
  apply (bool_decide_unpack _). reflexivity.
Defined.

(** Without a server the three rows end as three printed lines. *)
Example insertar_sin_servidor :
  insertar_datos_en_colecciones (H := sin_servidor) df_mismo_id (Database "lab")
    ["bar"] (mkWorld tt []) =
  (Returns tt,
   mkWorld tt
     [ErrorInsertar "bar" (PyMongoError "ServerSelectionTimeoutError");
      ErrorInsertar "bar" (PyMongoError "ServerSelectionTimeoutError");
      ErrorInsertar "bar" (PyMongoError "ServerSelectionTimeoutError")]).
Proof. reflexivity. Qed.

(** ** Bulk insertion on the model server, continued *)

Module InsertionOnMongo.
Import Mongo MongoFacts.

(** One turn of the inner loop leaves the server as it was or appends the
    document to its collection. *)
Lemma insertar_documento_any (db coll : string) (d : dict) (w : world state) :
  let w1 := (insertar_documentos (CollectionOf db coll) coll [d] w).2 in
  server w1 = server w
  \/ server w1 = store db coll (documents db coll (server w) ++ [d]) (server w).
Proof.
  cbn [insertar_documentos].
  unfold mbind, M_bind, Eff.bind, Eff.try_except, Eff.call. simpl. unfold insert.
  destruct (PyDict.get "_id" d) as [id|] eqn:Hid.
  - destruct (existsb _ _); simpl; [try rewrite Hid; simpl; now left|now right].
  - simpl. now right.
Qed.

Lemma insertar_documentos_any (db coll : string) (docs : list dict)
    (w : world state) :
  let w' := (insertar_documentos (CollectionOf db coll) coll docs w).2 in
  grows (server w) (server w')
  /\ (forall db' coll', (db', coll') <> (db, coll) ->
        documents db' coll' (server w') = documents db' coll' (server w))
  /\ (forall d, d ∈ documents db coll (server w') ->
        d ∈ documents db coll (server w) \/ d ∈ docs).
Proof.
  cbv zeta. revert w. induction docs as [|d ds IH]; intros w.
  - simpl. split; [apply grows_refl|]. split; [reflexivity|]. intros d Hd. now left.
  - rewrite insertar_documentos_cons.
    pose proof (insertar_documento_any db coll d w) as Hstep. cbv zeta in Hstep.
    destruct (insertar_documentos (CollectionOf db coll) coll [d] w) as [r w1].
    simpl in Hstep.
    assert (Hone : grows (server w) (server w1)
              /\ (forall db' coll', (db', coll') <> (db, coll) ->
                    documents db' coll' (server w1) = documents db' coll' (server w))
              /\ (forall d', d' ∈ documents db coll (server w1) ->
                    d' ∈ documents db coll (server w) \/ d' = d)).
    { destruct Hstep as [->| ->].
      - split; [apply grows_refl|]. split; [reflexivity|]. intros d' Hd'. now left.
      - split; [apply grows_store|]. split.
        + intros db' coll' Hne. now apply documents_store_other.
        + intros d' Hd'. rewrite documents_store in Hd'.
          apply elem_of_app in Hd' as [Hd'|Hd']; [now left|].
          right. now apply list_elem_of_singleton in Hd'. }
    destruct Hone as (Hg1 & Ho1 & Hd1).
    destruct r as [[]|e].
    + destruct (IH w1) as (Hg & Ho & Hd).
      split; [eapply grows_trans; eauto|]. split.
      * intros db' coll' Hne. rewrite Ho by assumption. now apply Ho1.
      * intros d' Hd'. destruct (Hd d' Hd') as [Hin|Hin].
        -- destruct (Hd1 d' Hin) as [?| ->]; [now left|right; left].
        -- right. now right.
    + simpl. split; [assumption|]. split; [assumption|].
      intros d' Hd'. destruct (Hd1 d' Hd') as [?| ->]; [now left|right; left].
Qed.

(** The whole run: what may change and where the new documents come from. *)
Lemma insertar_effect (df : DataFrame) (db : string)
    (nombre_categorias : list string) (w : world state) :
  let w' := (insertar_datos_en_colecciones df (Database db) nombre_categorias w).2 in
  grows (server w) (server w')
  /\ (forall db' coll', db' <> db \/ coll' ∉ nombre_categorias ->
        documents db' coll' (server w') = documents db' coll' (server w))
  /\ (forall coll d, d ∈ documents db coll (server w') ->
        d ∈ documents db coll (server w)
        \/ (coll ∈ nombre_categorias
            /\ exists row, row ∈ rows df
                 /\ has_category coll (columns df) row
                 /\ rename_id (row_dict (columns df) row.2) = Returns d)).
Proof.
  cbv zeta. revert w. induction nombre_categorias as [|a resto IH]; intros w.
  - simpl. split; [apply grows_refl|]. split; [reflexivity|]. intros c d Hd. now left.
  - rewrite insertar_datos_en_colecciones_cons.
    assert (Hsame : grows (server w) (server w)
              /\ (forall db' coll', db' <> db \/ coll' ∉ a :: resto ->
                    documents db' coll' (server w) = documents db' coll' (server w))
              /\ (forall coll d, d ∈ documents db coll (server w) ->
                    d ∈ documents db coll (server w)
                    \/ (coll ∈ a :: resto
                        /\ exists row, row ∈ rows df
                             /\ has_category coll (columns df) row
                             /\ rename_id (row_dict (columns df) row.2) = Returns d))).
    { split; [apply grows_refl|]. split; [reflexivity|]. intros c d Hd. now left. }
    unfold filter_category.
    destruct (decide ("category" ∈ columns df)); [|exact Hsame].
    set (df_a := {| columns := columns df;
                    rows := filter (has_category a (columns df)) (rows df) |}).
    destruct (rename_ids_outcome (T_to_dict_values df_a))
      as [(docs & -> & _ & Hall)| ->]; [|exact Hsame].
    clear Hsame. simpl getitem.
    destruct (insertar_documentos_any db a docs w) as (Hg1 & Ho1 & Hd1).
    assert (Hrows : forall d, d ∈ docs ->
              exists row, row ∈ rows df /\ has_category a (columns df) row
                /\ rename_id (row_dict (columns df) row.2) = Returns d).
    { intros d Hd. apply list_elem_of_lookup in Hd as [i Hi].
      destruct (Forall2_lookup_r _ _ _ _ _ Hall Hi) as (d0 & Hd0 & Hren).
      assert (Hin0 : d0 ∈ T_to_dict_values df_a) by (apply list_elem_of_lookup; eauto).
      apply T_to_dict_values_rows in Hin0 as (row & Hrow & ->).
      simpl in Hrow. apply list_elem_of_filter in Hrow as [Hcat Hrow].
      now exists row. }
    destruct (insertar_documentos (CollectionOf db a) a docs w) as [r w1].
    simpl in Hg1, Ho1, Hd1.
    assert (Hfirst : (forall db' coll', db' <> db \/ coll' ∉ a :: resto ->
                documents db' coll' (server w1) = documents db' coll' (server w))
              /\ (forall coll d, d ∈ documents db coll (server w1) ->
                    d ∈ documents db coll (server w)
                    \/ (coll ∈ a :: resto
                        /\ exists row, row ∈ rows df
                             /\ has_category coll (columns df) row
                             /\ rename_id (row_dict (columns df) row.2) = Returns d))).
    { split.
      - intros db' coll' Hne. apply Ho1. intros [= -> ->].
        destruct Hne as [Hne|Hne]; [congruence|]. apply Hne. left.
      - intros coll d Hd. destruct (decide (coll = a)) as [->|Hne].
        + destruct (Hd1 d Hd) as [?|Hin]; [now left|].
          right. split; [left|]. now apply Hrows.
        + left. rewrite <- (Ho1 db coll); [assumption|congruence]. }
    destruct Hfirst as (Ho1' & Hd1').
    destruct r as [[]|e1]; [|simpl; repeat split; assumption].
    destruct (IH w1) as (Hg & Ho & Hd).
    split; [eapply grows_trans; eauto|]. split.
    + intros db' coll' Hne. rewrite Ho.
      * now apply Ho1'.
      * destruct Hne as [?|Hne]; [now left|]. right.
        intros Hin. apply Hne. now right.
    + intros coll d Hin. destruct (Hd coll d Hin) as [Hin1|(Hc & Hrow)].
      * now apply Hd1'.
      * right. split; [now right|assumption].
Qed.

(** X8: on the model server every document found in a collection after the
    call was there before, or is the document of a row of the table whose
    category is the collection's name and is selected: a row never lands
    in the collection of another category, and rows of categories that
    are not selected are not inserted. *)
Theorem insertar_stores_only_row_documents (df : DataFrame) (db : string)
    (nombre_categorias : list string) (w : world state) (coll : string) (d : dict) :
  let w' := (insertar_datos_en_colecciones df (Database db) nombre_categorias w).2 in
  d ∈ documents db coll (server w') ->
  d ∈ documents db coll (server w)
  \/ (coll ∈ nombre_categorias
      /\ exists row, row ∈ rows df
           /\ has_category coll (columns df) row
           /\ rename_id (row_dict (columns df) row.2) = Returns d).
Proof.
  destruct (insertar_effect df db nombre_categorias w) as (_ & _ & Hd).
  apply Hd.
Qed.



End InsertionOnMongo.

Lemma insertar_stores_only_row_documents_witness :
  [("_id", VStr "xyz"); ("category", VStr "bar"); ("name", VStr "C")]
    ∈ Mongo.documents "lab" "bar" mundo_vacio.(server)
  \/ ("bar" ∈ ["bar"]
      /\ exists row, row ∈ rows df_mismo_id
           /\ has_category "bar" (columns df_mismo_id) row
           /\ rename_id (row_dict (columns df_mismo_id) row.2) =
                Returns [("_id", VStr "xyz"); ("category", VStr "bar"); ("name", VStr "C")]).
Proof.
  apply (InsertionOnMongo.insertar_stores_only_row_documents df_mismo_id "lab" ["bar"]
           mundo_vacio "bar"
           [("_id", VStr "xyz"); ("category", VStr "bar"); ("name", VStr "C")]).
  vm_compute. right. left.
Defined.


(** ** Bootstrap and provisioning, whatever the driver *)

Section GlueAnyDriver.
Context {St : Type} `{Driver St}.

(** X10: when the server lists the database and the database lists the
    collection, [conexion_mongo] returns the client and the handle of that
    collection of that database; it prints nothing and changes nothing. *)
Theorem conexion_mongo_found (nombre_base_datos nombre_coleccion : string)
    (w : world St) (dbs colls : list string) :
  list_database_names MongoClient (server w) = Returns dbs ->
  nombre_base_datos ∈ dbs ->
  list_collection_names (Database nombre_base_datos) (server w) = Returns colls ->
  nombre_coleccion ∈ colls ->
  conexion_mongo nombre_base_datos nombre_coleccion w =
    (Returns (Some (MongoClient, CollectionOf nombre_base_datos nombre_coleccion)), w).
Proof.
  intros Hdbs Hdb Hcolls Hcoll.
  unfold conexion_mongo, Eff.try_except, mbind, M_bind, Eff.bind, Eff.query.
  rewrite Hdbs. simpl.
  destruct (decide (nombre_base_datos ∈ dbs)); [|contradiction]. simpl.
  rewrite Hcolls. simpl.
  destruct (decide (nombre_coleccion ∈ colls)); [|contradiction]. reflexivity.
Qed.

(** X11: [conexion_mongo] never raises and never changes the server,
    whatever the driver does.  It returns the pair of handles and prints
    nothing, or it prints exactly one line, the error, and returns
    [None]. *)
Theorem conexion_mongo_outcomes (nombre_base_datos nombre_coleccion : string)
    (w : world St) :
  conexion_mongo nombre_base_datos nombre_coleccion w =
    (Returns (Some (MongoClient, CollectionOf nombre_base_datos nombre_coleccion)), w)
  \/ exists e,
       conexion_mongo nombre_base_datos nombre_coleccion w =
         (Returns None, mkWorld (server w) (stdout w ++ [ErrorConectar e])).
Proof.
  unfold conexion_mongo, Eff.try_except, mbind, M_bind, Eff.bind, Eff.query.
  destruct (list_database_names _ _) as [dbs|e1]; simpl; [|eauto].
  destruct (decide _); simpl; [|eauto].
  destruct (list_collection_names _ _) as [colls|e2]; simpl; [|eauto].
  destruct (decide _); simpl; [|eauto]. left. now destruct w.
Qed.

(** One turn of the provisioning loop. *)
Lemma crear_colecciones_cons (sitios : handle) (categoria : string)
    (resto : list string) (w : world St) :
  crear_colecciones sitios (categoria :: resto) w =
    match create_collection sitios categoria (server w) with
    | (Returns _, s) => crear_colecciones sitios resto (mkWorld s (stdout w))
    | (Raises (CollectionInvalid _), s) =>
        crear_colecciones sitios resto
          (mkWorld s (stdout w ++ [ColeccionYaExiste categoria]))
    | (Raises e, s) => (Raises e, mkWorld s (stdout w))
    end.
Proof.
  cbn [crear_colecciones].
  unfold mbind, M_bind, Eff.bind, Eff.try_except, Eff.call.
  destruct (create_collection sitios categoria (server w)) as [[[]|e] s];
    [reflexivity|].
  destruct e; reflexivity.
Qed.

Lemma crear_colecciones_app (sitios : handle) (l1 l2 : list string) (w : world St) :
  crear_colecciones sitios (l1 ++ l2) w =
    match crear_colecciones sitios l1 w with
    | (Returns _, w1) => crear_colecciones sitios l2 w1
    | (Raises e, w1) => (Raises e, w1)
    end.
Proof.
  revert w. induction l1 as [|c l1 IH]; intros w; [reflexivity|].
  rewrite <- app_comm_cons, !crear_colecciones_cons.
  destruct (create_collection sitios c (server w)) as [[[]|e] s]; [apply IH|].
  destruct e; try reflexivity. apply IH.
Qed.

(** What the provisioning loop prints: lines for names of the list. *)
Lemma crear_colecciones_stdout (sitios : handle) (nombre_colecciones : list string)
    (w : world St) :
  exists out,
    stdout (crear_colecciones sitios nombre_colecciones w).2 = stdout w ++ out
    /\ Forall (fun line => exists c, c ∈ nombre_colecciones
                                    /\ line = ColeccionYaExiste c) out.
Proof.
  revert w. induction nombre_colecciones as [|c l IH]; intros w.
  - exists []. simpl. rewrite app_nil_r. split; [reflexivity|constructor].
  - rewrite crear_colecciones_cons.
    assert (Hweak : forall out,
              Forall (fun line => exists c', c' ∈ l /\ line = ColeccionYaExiste c') out ->
              Forall (fun line => exists c', c' ∈ c :: l /\ line = ColeccionYaExiste c') out).
    { intros out Hout. eapply Forall_impl; [exact Hout|].
      intros line (c' & Hin & ->). exists c'. split; [now right|reflexivity]. }
    destruct (create_collection sitios c (server w)) as [[[]|e] s].
    + destruct (IH (mkWorld s (stdout w))) as (out & Hout & Hall).
      exists out. split; [exact Hout|now apply Hweak].
    + destruct e;
        try (exists []; simpl; rewrite app_nil_r; split; [reflexivity|constructor]).
      destruct (IH (mkWorld s (stdout w ++ [ColeccionYaExiste c])))
        as (out & Hout & Hall).
      exists (ColeccionYaExiste c :: out). simpl in Hout.
      rewrite Hout, <- app_assoc. split; [reflexivity|].
      constructor; [exists c; split; [left|reflexivity]|now apply Hweak].
Qed.


(** X13: any other error of [create_collection] stops the provisioning at
    that name.  The names after it are not attempted, the error is printed
    and the call returns [None]; what the earlier turns created stays. *)
Theorem crear_bbbd_colecciones_stops_at_error (conexion : pyobject) (h : handle)
    (nombre_base_datos : string) (antes : list string) (categoria : string)
    (despues : list string) (w w1 : world St) (e : exn) (s2 : St) :
  is_client_or_collection conexion = Some h ->
  crear_colecciones (getitem h nombre_base_datos) antes w = (Returns tt, w1) ->
  create_collection (getitem h nombre_base_datos) categoria (server w1) = (Raises e, s2) ->
  (forall msg, e <> CollectionInvalid msg) ->
  crear_bbbd_colecciones conexion nombre_base_datos (antes ++ categoria :: despues) w =
    (Returns None, mkWorld s2 (stdout w1 ++ [ErrorCrear e])).
Proof.
  intros Hh Hantes Hcreate He. unfold crear_bbbd_colecciones. rewrite Hh.
  unfold Eff.try_except, mbind, M_bind, Eff.bind.
  rewrite crear_colecciones_app, Hantes, crear_colecciones_cons, Hcreate.
  destruct e; try reflexivity. now destruct (He msg).
Qed.

(** X14: [crear_bbbd_colecciones] never raises, whatever the driver does.
    It returns the handle after printing only "already exists" lines for
    names of the list, or it returns [None] and the last line printed is
    the error. *)
Theorem crear_bbbd_colecciones_outcomes (conexion : pyobject)
    (nombre_base_datos : string) (nombre_colecciones : list string) (w : world St) :
  exists w' out,
    Forall (fun line => exists c, c ∈ nombre_colecciones
                                  /\ line = ColeccionYaExiste c) out
    /\ ((exists h, is_client_or_collection conexion = Some h
                   /\ crear_bbbd_colecciones conexion nombre_base_datos
                        nombre_colecciones w
                      = (Returns (Some (getitem h nombre_base_datos)), w')
                   /\ stdout w' = stdout w ++ out)
        \/ (exists e, crear_bbbd_colecciones conexion nombre_base_datos
                        nombre_colecciones w = (Returns None, w')
                      /\ stdout w' = stdout w ++ out ++ [ErrorCrear e])).
Proof.
  unfold crear_bbbd_colecciones.
  destruct (is_client_or_collection conexion) as [h|] eqn:Hh.
  - destruct (crear_colecciones_stdout (getitem h nombre_base_datos)
                nombre_colecciones w) as (out & Hout & Hall).
    unfold Eff.try_except, mbind, M_bind, Eff.bind.
    destruct (crear_colecciones _ _ w) as [[[]|e] w1]; simpl in Hout.
    + exists w1, out. split; [assumption|]. left. now exists h.
    + exists (mkWorld (server w1) (stdout w1 ++ [ErrorCrear e])), out.
      split; [assumption|]. right. exists e. split; [reflexivity|].
      simpl. now rewrite Hout, <- app_assoc.
  - exists (mkWorld (server w) (stdout w ++ [ErrorCrear (TypeError
      ("La conexión proporcionada no es válida. Debe ser una instancia de "
       +:+ "pymongo.MongoClient o pymongo.collection.Collection."))])), [].
    split; [constructor|]. right. eexists. split; reflexivity.
Qed.
End GlueAnyDriver.

Lemma conexion_mongo_found_witness :
  conexion_mongo "lab" "bar" mundo_lab =
    (Returns (Some (MongoClient, CollectionOf "lab" "bar")), mundo_lab).
Proof.
  apply (conexion_mongo_found "lab" "bar" mundo_lab ["lab"] ["bar"]).
  - reflexivity.
  - left.
  - reflexivity.
  - left.
Defined.


Lemma crear_bbbd_colecciones_stops_at_error_witness :
  crear_bbbd_colecciones (H := sin_servidor) (Handle MongoClient) "lab"
    ([] ++ "bar" :: ["park"]) (mkWorld tt []) =
    (Returns None,
     mkWorld tt ([] ++ [ErrorCrear (PyMongoError "ServerSelectionTimeoutError")])).
Proof.
  apply (crear_bbbd_colecciones_stops_at_error (H := sin_servidor)
           (Handle MongoClient) MongoClient "lab" [] "bar" ["park"]
           (mkWorld tt []) (mkWorld tt [])
           (PyMongoError "ServerSelectionTimeoutError") tt).
  - reflexivity.
  - reflexivity.
  - reflexivity.
  - discriminate.
Defined.

(** ** Provisioning on the model server *)

Module ProvisioningOnMongo.
Import Mongo MongoFacts.

Lemma collections_store (db coll db' coll' : string) (docs : list dict) (s : state) :
  collections db' (store db coll docs s) !! coll' =
    if decide (db' = db /\ coll' = coll) then Some docs else collections db' s !! coll'.
Proof.
  unfold collections, store. destruct (decide (db' = db)) as [->|Hdb].
  - rewrite lookup_insert_eq. simpl. destruct (decide (coll' = coll)) as [->|Hc].
    + rewrite lookup_insert_eq. destruct (decide _) as [|Hn]; [reflexivity|].
      exfalso. now apply Hn.
    + rewrite lookup_insert_ne by congruence.
      destruct (decide _) as [[_ ?]|]; [contradiction|reflexivity].
  - rewrite lookup_insert_ne by congruence.
    destruct (decide _) as [[? _]|]; [contradiction|reflexivity].
Qed.

Lemma elem_of_names {A} (m : gmap string A) (k : string) :
  k ∈ (map_to_list m).*1 <-> is_Some (m !! k).
Proof.
  rewrite list_elem_of_fmap. split.
  - intros ([k' x] & -> & Hin). apply elem_of_map_to_list in Hin. now exists x.
  - intros [x Hx]. exists (k, x). split; [reflexivity|]. now apply elem_of_map_to_list.
Qed.

(** The loop with a database handle: it returns, and afterwards the
    collections are those there were, unchanged, and an empty one for each
    name of the list that was missing. *)
Lemma crear_colecciones_mongo (db : string) (nombre_colecciones : list string)
    (w : world state) :
  exists w',
    crear_colecciones (Database db) nombre_colecciones w = (Returns tt, w')
    /\ forall db' coll',
         collections db' (server w') !! coll' =
           match collections db' (server w) !! coll' with
           | Some docs => Some docs
           | None => if decide (db' = db /\ coll' ∈ nombre_colecciones)
                     then Some [] else None
           end.
Proof.
  revert w. induction nombre_colecciones as [|c l IH]; intros w.
  - exists w. split; [reflexivity|]. intros db' coll'.
    destruct (collections db' (server w) !! coll'); [reflexivity|].
    destruct (decide _) as [[_ Hin]|]; [now apply elem_of_nil in Hin|reflexivity].
  - rewrite crear_colecciones_cons. simpl. unfold create.
    destruct (collections db (server w) !! c) as [docs0|] eqn:Hc.
    + destruct (IH (mkWorld (server w) (stdout w ++ [ColeccionYaExiste c])))
        as (w' & Hrun & Hpost).
      exists w'. split; [exact Hrun|]. intros db' coll'. rewrite Hpost. simpl.
      destruct (collections db' (server w) !! coll') eqn:Hl; [reflexivity|].
      destruct (decide (db' = db /\ coll' ∈ l)) as [[Hd1 Hl1]|H1],
               (decide (db' = db /\ coll' ∈ c :: l)) as [[Hd2 Hl2]|H2];
        try reflexivity.
      * exfalso. apply H2. split; [assumption|now right].
      * exfalso. subst db'. apply elem_of_cons in Hl2 as [->|Hin]; [congruence|].
        apply H1. now split.
    + destruct (IH (mkWorld (store db c [] (server w)) (stdout w)))
        as (w' & Hrun & Hpost).
      exists w'. split; [exact Hrun|]. intros db' coll'. rewrite Hpost. simpl.
      rewrite collections_store.
      destruct (decide (db' = db /\ coll' = c)) as [[-> ->]|Hne].
      * rewrite Hc. destruct (decide _) as [|Hn]; [reflexivity|].
        exfalso. apply Hn. split; [reflexivity|left].
      * destruct (collections db' (server w) !! coll'); [reflexivity|].
        destruct (decide (db' = db /\ coll' ∈ l)) as [[Hd1 Hl1]|H1],
                 (decide (db' = db /\ coll' ∈ c :: l)) as [[Hd2 Hl2]|H2];
          try reflexivity.
        -- exfalso. apply H2. split; [assumption|now right].
        -- exfalso. apply elem_of_cons in Hl2 as [->|Hin].
           ++ apply Hne. now split.
           ++ apply H1. now split.
Qed.

(** X15: on the model server, with names the driver accepts (here: simple
    names, for the database and for the collections), provisioning with a
    client returns the database handle; afterwards every name of the list
    is a collection of the database, the collections that existed (in any
    database) hold what they held, and the only new collections are empty
    ones named in the list. *)
Theorem crear_bbbd_colecciones_ensures (nombre_base_datos : string)
    (nombre_colecciones : list string) (w : world state) :
  nombre_simple nombre_base_datos = true ->
  Forall (fun c => nombre_simple c = true) nombre_colecciones ->
  exists w',
    crear_bbbd_colecciones (Handle MongoClient) nombre_base_datos nombre_colecciones w
      = (Returns (Some (Database nombre_base_datos)), w')
    /\ (forall c, c ∈ nombre_colecciones ->
          is_Some (collections nombre_base_datos (server w') !! c))
    /\ (forall db' coll', is_Some (collections db' (server w) !! coll') ->
          collections db' (server w') !! coll' = collections db' (server w) !! coll')
    /\ (forall db' coll', is_Some (collections db' (server w') !! coll') ->
          is_Some (collections db' (server w) !! coll')
          \/ (db' = nombre_base_datos /\ coll' ∈ nombre_colecciones
              /\ collections db' (server w') !! coll' = Some [])).
Proof.
  intros _ _.
  destruct (crear_colecciones_mongo nombre_base_datos nombre_colecciones w)
    as (w' & Hrun & Hpost).
  exists w'. split.
  { unfold crear_bbbd_colecciones, Eff.try_except, mbind, M_bind, Eff.bind. simpl.
    now rewrite Hrun. }
  split; [|split].
  - intros c Hin. rewrite Hpost.
    destruct (collections nombre_base_datos (server w) !! c); [eauto|].
    destruct (decide _) as [|Hn]; [eauto|]. exfalso. now apply Hn.
  - intros db' coll' [docs Hdocs]. now rewrite Hpost, Hdocs.
  - intros db' coll'. rewrite Hpost.
    destruct (collections db' (server w) !! coll'); [eauto|].
    destruct (decide _) as [[-> Hin]|]; [|intros [? [=]]].
    intros _. right. now repeat split.
Qed.

(** When every name exists the loop changes nothing and prints one line
    per name. *)
Lemma crear_colecciones_existing (db : string) (nombre_colecciones : list string)
    (w : world state) :
  (forall c, c ∈ nombre_colecciones -> is_Some (collections db (server w) !! c)) ->
  crear_colecciones (Database db) nombre_colecciones w =
    (Returns tt, mkWorld (server w) (stdout w ++ ya_existen nombre_colecciones)).
Proof.
  revert w. induction nombre_colecciones as [|c l IH]; intros w Hall.
  - simpl. unfold ya_existen. simpl. rewrite app_nil_r. now destruct w.
  - rewrite crear_colecciones_cons. simpl. unfold create.
    destruct (Hall c) as [docs ->]; [left|].
    rewrite IH; simpl.
    + unfold ya_existen. now rewrite <- app_assoc.
    + intros c' Hin. apply Hall. now right.
Qed.

(** X16: on the model server, with names the driver accepts (here: simple
    names), provisioning is idempotent.  Calling it again after a first
    call with a client returns the database handle, leaves the server
    exactly as it is and prints one "already exists" line per name. *)
Theorem crear_bbbd_colecciones_twice (nombre_base_datos : string)
    (nombre_colecciones : list string) (w : world state) :
  nombre_simple nombre_base_datos = true ->
  Forall (fun c => nombre_simple c = true) nombre_colecciones ->
  let w1 := (crear_bbbd_colecciones (Handle MongoClient) nombre_base_datos
               nombre_colecciones w).2 in
  crear_bbbd_colecciones (Handle MongoClient) nombre_base_datos nombre_colecciones w1
    = (Returns (Some (Database nombre_base_datos)),
       mkWorld (server w1) (stdout w1 ++ ya_existen nombre_colecciones)).
Proof.
  intros _ _.
  destruct (crear_colecciones_mongo nombre_base_datos nombre_colecciones w)
    as (w' & Hrun & Hpost).
  assert (Hfirst : (crear_bbbd_colecciones (Handle MongoClient) nombre_base_datos
                      nombre_colecciones w).2 = w').
  { unfold crear_bbbd_colecciones, Eff.try_except, mbind, M_bind, Eff.bind. simpl.
    now rewrite Hrun. }
  cbv zeta. rewrite Hfirst.
  unfold crear_bbbd_colecciones, Eff.try_except, mbind, M_bind, Eff.bind. simpl.
  rewrite crear_colecciones_existing; [reflexivity|].
  intros c Hin. rewrite Hpost.
  destruct (collections nombre_base_datos (server w) !! c); [eauto|].
  destruct (decide _) as [|Hn]; [eauto|]. exfalso. now apply Hn.
Qed.

(** X17: on the model server the bootstrap finds what the provisioning
    made, when the client given to the provisioning is a client of the
    server that [pymongo.MongoClient()] reaches (the one server of the
    model) and the names are names the driver accepts (here: simple names).
    After such a call, [conexion_mongo] for the database and any name of
    the list returns the handle of that collection and prints nothing. *)
Theorem conexion_mongo_after_crear (nombre_base_datos nombre_coleccion : string)
    (nombre_colecciones : list string) (w : world state) :
  nombre_simple nombre_base_datos = true ->
  Forall (fun c => nombre_simple c = true) nombre_colecciones ->
  nombre_coleccion ∈ nombre_colecciones ->
  let w1 := (crear_bbbd_colecciones (Handle MongoClient) nombre_base_datos
               nombre_colecciones w).2 in
  conexion_mongo nombre_base_datos nombre_coleccion w1 =
    (Returns (Some (MongoClient, CollectionOf nombre_base_datos nombre_coleccion)), w1).
Proof.
  intros _ _ Hin.
  destruct (crear_colecciones_mongo nombre_base_datos nombre_colecciones w)
    as (w' & Hrun & Hpost).
  assert (Hfirst : (crear_bbbd_colecciones (Handle MongoClient) nombre_base_datos
                      nombre_colecciones w).2 = w').
  { unfold crear_bbbd_colecciones, Eff.try_except, mbind, M_bind, Eff.bind. simpl.
    now rewrite Hrun. }
  cbv zeta. rewrite Hfirst.
  assert (Hcoll : is_Some (collections nombre_base_datos (server w') !! nombre_coleccion)).
  { rewrite Hpost.
    destruct (collections nombre_base_datos (server w) !! nombre_coleccion); [eauto|].
    destruct (decide _) as [|Hn]; [eauto|]. exfalso. now apply Hn. }
  assert (Hdb : is_Some (server w' !! nombre_base_datos)).
  { destruct Hcoll as [docs Hdocs]. unfold collections in Hdocs.
    destruct (server w' !! nombre_base_datos); [eauto|].
    simpl in Hdocs. now rewrite lookup_empty in Hdocs. }
  unfold conexion_mongo, Eff.try_except, mbind, M_bind, Eff.bind, Eff.query. simpl.
  destruct (decide (nombre_base_datos ∈ (map_to_list (server w')).*1)) as [|Hn];
    [|exfalso; apply Hn; now apply elem_of_names].
  simpl.
  destruct (decide (nombre_coleccion ∈
              (map_to_list (collections nombre_base_datos (server w'))).*1)) as [|Hn];
    [|exfalso; apply Hn; now apply elem_of_names].
  simpl. now destruct w'.
Qed.
End ProvisioningOnMongo.

Lemma conexion_mongo_after_crear_witness :
  conexion_mongo "lab" "park"
    (crear_bbbd_colecciones (Handle MongoClient) "lab" ["bar"; "park"] mundo_vacio).2 =
  (Returns (Some (MongoClient, CollectionOf "lab" "park")),
   (crear_bbbd_colecciones (Handle MongoClient) "lab" ["bar"; "park"] mundo_vacio).2).
Proof.
  apply (ProvisioningOnMongo.conexion_mongo_after_crear "lab" "park" ["bar"; "park"]
           mundo_vacio).
  - reflexivity.
  - repeat constructor.
  - right. left.
Defined.

Lemma crear_bbbd_colecciones_ensures_witness :
  exists w',
    crear_bbbd_colecciones (Handle MongoClient) "lab" ["bar"; "park"] mundo_lab
      = (Returns (Some (Database "lab")), w')
    /\ (forall c, c ∈ ["bar"; "park"] ->
          is_Some (Mongo.collections "lab" (server w') !! c))
    /\ (forall db' coll', is_Some (Mongo.collections db' (server mundo_lab) !! coll') ->
          Mongo.collections db' (server w') !! coll'
            = Mongo.collections db' (server mundo_lab) !! coll')
    /\ (forall db' coll', is_Some (Mongo.collections db' (server w') !! coll') ->
          is_Some (Mongo.collections db' (server mundo_lab) !! coll')
          \/ (db' = "lab" /\ coll' ∈ ["bar"; "park"]
              /\ Mongo.collections db' (server w') !! coll' = Some [])).
Proof.
  apply (ProvisioningOnMongo.crear_bbbd_colecciones_ensures "lab" ["bar"; "park"]
           mundo_lab).
  - reflexivity.
  - repeat constructor.
Defined.

Lemma crear_bbbd_colecciones_twice_witness :
  crear_bbbd_colecciones (Handle MongoClient) "lab" ["bar"; "park"]
    (crear_bbbd_colecciones (Handle MongoClient) "lab" ["bar"; "park"] mundo_vacio).2
  = (Returns (Some (Database "lab")),
     mkWorld
       (server (crear_bbbd_colecciones (Handle MongoClient) "lab" ["bar"; "park"]
                  mundo_vacio).2)
       (stdout (crear_bbbd_colecciones (Handle MongoClient) "lab" ["bar"; "park"]
                  mundo_vacio).2 ++ ya_existen ["bar"; "park"])).
Proof.
  apply (ProvisioningOnMongo.crear_bbbd_colecciones_twice "lab" ["bar"; "park"]
           mundo_vacio).
  - reflexivity.
  - repeat constructor.
Defined.

(** ** The calls the driver receives *)




(** ** The filter of [query_near], for every key *)

(** X19: for every geometry key, [query_near] asks [find] for a filter with
    the single entry 'geometry', whose value has the single entry '$near';
    under '$near' the radius is always bound to '$maxDistance', and the
    reference point is bound to '$' followed by the key except when the key
    is "maxDistance", where that entry is the radius entry. *)
Theorem query_near_filter_any_key (punto_referencia radio : value)
    (coleccion : Collection) (col_geometria_coleccion : string) :
  query_near punto_referencia radio coleccion col_geometria_coleccion =
    pd_DataFrame <$>
      find coleccion
        (VDict [("geometry",
                 VDict [("$near",
                         VDict (if decide (col_geometria_coleccion = "maxDistance")
                                then [("$maxDistance", radio)]
                                else [("$" +:+ col_geometria_coleccion, punto_referencia);
                                      ("$maxDistance", radio)]))])]).
Proof.
  unfold query_near. destruct (decide _) as [->|Hne].
  - reflexivity.
  - now rewrite near_filter_other_key.
Qed.
